(** * SimplyFitness: the Typeform webhook handler

    A shallow embedding of
    [kissinger/typeform-webhook/webhook-handler/app.py] and the properties
    of its answer extraction, field resolution, prompt composition and
    orchestration.

    Python values are embedded as follows.
    - A [str] is the list of its Unicode code points ([pystr]).
    - A value decoded from JSON (and every value the handler builds from
      one) is a [json] tree.  Numbers are restricted to integers: the
      handler does no arithmetic on payload numbers, and floats are left
      out of the model.
    - A [dict] built by the handler is a [gmap] keyed by [pykey], the
      hashable values up to Python's key equality ([True == 1]).
    - A call that may raise returns a [result]; code with side effects
      lives in the monad [M], which threads the list of effects performed
      so far and may raise.
    - Library functions whose result is not computed here (HMAC, the JSON
      parser, [repr] of containers, [str] of an exception) and the outcome
      of every call to an external service are fields of the record
      [world]. *)

From Stdlib Require Import ZArith List String Ascii Bool Lia DecimalString.
From stdpp Require Import base option list countable gmap fin_maps.

Local Open Scope Z_scope.
Set Warnings "-register-all".

(** ** Strings *)

Abbreviation pystr := (list Z).

(** A string literal of the source (all of them are ASCII). *)
Definition lit (s : string) : pystr :=
  (λ a, Z.of_N (N_of_ascii a)) <$> list_ascii_of_string s.

(** [sep.join(parts)] on a list of strings. *)
Fixpoint py_join (sep : pystr) (parts : list pystr) : pystr :=
  match parts with
  | [] => []
  | [p] => p
  | p :: rest => p ++ sep ++ py_join sep rest
  end.

(** [str(n)] for an [int]. *)
Definition py_int_str (n : Z) : pystr :=
  lit (NilZero.string_of_int (Z.to_int n)).

(** [str(b)] for a [bool]. *)
Definition py_bool_str (b : bool) : pystr :=
  if b then lit "True" else lit "False".



(** ** Exceptions and results *)

Inductive exn :=
| KeyError (key : pystr)
| TypeError
| ValueError
| AttributeError
| UserNotFoundException
| ExternalError (code : nat).

Inductive result (A : Type) :=
| Ok (a : A)
| Raise (e : exn).
Arguments Ok {A} a.
Arguments Raise {A} e.

#[export] Instance result_ret : MRet result := λ A a, Ok a.
#[export] Instance result_bind : MBind result := λ A B f r,
  match r with
  | Ok a => f a
  | Raise e => Raise e
  end.

(** ** JSON values *)

Inductive json :=
| JNull
| JBool (b : bool)
| JInt (n : Z)
| JStr (s : pystr)
| JArr (items : list json)
| JObj (members : list (pystr * json)).

(** A JSON object is a dict: a key is looked up at its first entry. *)
Fixpoint assoc (k : pystr) (kvs : list (pystr * json)) : option json :=
  match kvs with
  | [] => None
  | (k', v) :: rest => if bool_decide (k' = k) then Some v else assoc k rest
  end.

(** The keys of a dict, each once. *)
Fixpoint obj_keys (kvs : list (pystr * json)) : list pystr :=
  match kvs with
  | [] => []
  | (k, _) :: rest => k :: filter (λ k', k' ≠ k) (obj_keys rest)
  end.

(** [v[k]] for a string key [k]: only a dict can be subscripted by a
    string; a missing key is a [KeyError]. *)
Definition py_getitem (v : json) (k : pystr) : result json :=
  match v with
  | JObj kvs =>
      match assoc k kvs with
      | Some x => Ok x
      | None => Raise (KeyError k)
      end
  | _ => Raise TypeError
  end.

(** [k in v] where [v] is a dict.  Every use in the source follows a
    successful [v[...]], so [v] is a dict there ([py_getitem_dict]). *)
Definition py_has (v : json) (k : pystr) : bool :=
  match v with
  | JObj kvs => bool_decide (is_Some (assoc k kvs))
  | _ => false
  end.

(** [v.get(k)]: [None] when the key is absent; a value that is not a
    dict has no [get] attribute. *)
Definition py_get (v : json) (k : pystr) : result json :=
  match v with
  | JObj kvs => Ok (default JNull (assoc k kvs))
  | _ => Raise AttributeError
  end.

(** Truth value of a value, as tested by [if v] and [not v]. *)
Definition py_truthy (v : json) : bool :=
  match v with
  | JNull => false
  | JBool b => b
  | JInt n => negb (n =? 0)
  | JStr s => negb (bool_decide (s = []))
  | JArr l => negb (bool_decide (l = []))
  | JObj kvs => negb (bool_decide (kvs = []))
  end.

(** [v == s] for a string [s]: only an equal string compares equal. *)
Definition py_eq_str (v : json) (s : pystr) : bool :=
  match v with
  | JStr t => bool_decide (t = s)
  | _ => false
  end.

(** The elements a [for] loop (or [join]) draws from a value. *)
Definition py_iter (v : json) : result (list json) :=
  match v with
  | JArr l => Ok l
  | JStr s => Ok ((λ c, JStr [c]) <$> s)
  | JObj kvs => Ok (JStr <$> obj_keys kvs)
  | _ => Raise TypeError
  end.

(** [sep.join(v)]: every element drawn from [v] must be a string. *)
Fixpoint all_strings (l : list json) : result (list pystr) :=
  match l with
  | [] => Ok []
  | JStr s :: rest => ss ← all_strings rest; Ok (s :: ss)
  | _ :: _ => Raise TypeError
  end.

Definition py_join_value (sep : pystr) (v : json) : result pystr :=
  l ← py_iter v;
  ss ← all_strings l;
  Ok (py_join sep ss).

(** ** Dict keys *)

Inductive pykey :=
| KNone
| KInt (n : Z)
| KStr (s : pystr).

#[export] Instance pykey_eq_dec : EqDecision pykey.
Proof. solve_decision. Defined.

#[export] Instance pykey_countable : Countable pykey.
Proof.
  refine (inj_countable'
    (λ k, match k with
          | KNone => inl ()
          | KInt n => inr (inl n)
          | KStr s => inr (inr s)
          end)
    (λ x, match x with
          | inl _ => KNone
          | inr (inl n) => KInt n
          | inr (inr s) => KStr s
          end) _).
  by intros [].
Defined.

(** The key a value hashes to; lists and dicts are unhashable. *)
Definition to_key (v : json) : option pykey :=
  match v with
  | JNull => Some KNone
  | JBool b => Some (KInt (if b then 1 else 0))
  | JInt n => Some (KInt n)
  | JStr s => Some (KStr s)
  | JArr _ | JObj _ => None
  end.

(** [d[k] = v] on a dict built by the handler. *)
Definition dict_set {V} (d : gmap pykey V) (k : json) (v : V)
  : result (gmap pykey V) :=
  match to_key k with
  | Some key => Ok (<[key := v]> d)
  | None => Raise TypeError
  end.

(** ** The world outside the handler *)

Record date := { year : Z; month : Z; day : Z }.

(** The values the module reads from its environment when it is loaded
    (lines 21-23) and the list of line 290. *)
Record globals := {
  QUEUE_URL : pystr;
  STORY_TABLE : pystr;
  USER_POOL_ID : pystr;
  ignore_field_ids : list pystr
}.

(** Library functions that are not computed here, and the outcome of
    every call to an external service.  A service call takes the
    arguments the source passes; [post_alert n] is the outcome of the
    [n]-th post to the alert webhook. *)
Record world := {
  repr_container : json → pystr;
  str_exn : exn → pystr;
  unicode_digit : Z → option Z;
  json_loads : pystr → result json;
  hmac_sha256_base64 : pystr → pystr → result pystr;
  datetime_now : date;
  ssm_get_parameter : pystr → result pystr;
  admin_get_user : pystr → json → result json;
  admin_update_user_attributes : pystr → json → json → json → result ();
  dynamodb_query : pystr → json → result nat;
  dynamodb_put_item : pystr → json → pystr → result ();
  sqs_send_message : pystr → json → result ();
  post_prompt : pystr → pystr → result ();
  post_alert : nat → pystr → result ()
}.

(** [str(v)], which is also what an f-string field [{v}] expands to. *)
Definition py_str (w : world) (v : json) : pystr :=
  match v with
  | JStr s => s
  | JInt n => py_int_str n
  | JBool b => py_bool_str b
  | JNull => lit "None"
  | JArr _ | JObj _ => repr_container w v
  end.

(** ** Effects *)

Inductive level := INFO | ERROR.

(** What the handler has done to the outside world.  A trace lists the
    effects with the most recent one first. *)
Inductive effect :=
| Logged (lvl : level) (message : pystr)
| AlertPosted (text : pystr)
| UserUpdated (user_id form_id token : json)
| PromptPosted (text : pystr)
| StorySaved (user_id : json) (prompt : pystr)
| SignalSent (user_id : json).

Definition is_alert (e : effect) : bool :=
  match e with AlertPosted _ => true | _ => false end.

Definition M (A : Type) : Type := list effect → result A * list effect.

#[export] Instance M_ret : MRet M := λ A a tr, (Ok a, tr).
#[export] Instance M_bind : MBind M := λ A B f m tr,
  match m tr with
  | (Ok a, tr') => f a tr'
  | (Raise e, tr') => (Raise e, tr')
  end.

Definition lift {A} (r : result A) : M A := λ tr, (r, tr).
Definition raise {A} (e : exn) : M A := lift (Raise e).
Definition emit (e : effect) : M () := λ tr, (Ok (), e :: tr).

(** [try: body / except Exception as e: handler e]. *)
Definition try_except {A} (body : M A) (handler : exn → M A) : M A := λ tr,
  match body tr with
  | (Ok a, tr') => (Ok a, tr')
  | (Raise e, tr') => handler e tr'
  end.

(** [try: body / except Exception as e: ...] where the caller goes on
    from the outcome. *)
Definition attempt {A} (body : M A) : M (result A) := λ tr,
  match body tr with
  | (r, tr') => (Ok r, tr')
  end.

(** Lines 501-511: the post is issued outside any [try], so it raises
    when the webhook call does.  The address of line 503 is a
    placeholder that the deployment is to replace; the outcome of the
    post is the world's [post_alert] (see [alerts_refused] for the
    module as it is committed). *)
Definition send_error_to_slack (w : world) (error_message : pystr) : M () :=
  λ tr, (post_alert w (length (filter is_alert tr)) error_message,
         AlertPosted error_message :: tr).

(** Lines 188-190. *)
Definition log_and_alert (w : world) (message : pystr) (error : option exn)
  : M () :=
  emit (Logged ERROR message);;
  send_error_to_slack w
    (message ++ lit ". Error: " ++ from_option (str_exn w) (lit "None") error).

(** Lines 265-272. *)
Definition get_parameter (w : world) (name : pystr) : M pystr :=
  try_except (lift (ssm_get_parameter w name))
    (λ e,
      send_error_to_slack w
        (lit "Failed to get parameter " ++ name ++ lit ": " ++ str_exn w e);;
      raise e).

(** Lines 275-286. *)
Definition verify_signature (w : world) (received_signature : pystr)
    (payload : json) : M bool :=
  try_except
    (WEBHOOK_SECRET ← get_parameter w (lit "typeformSecret");
     encoded ← lift (match payload with
                     | JStr p => hmac_sha256_base64 w WEBHOOK_SECRET p
                     | _ => Raise TypeError
                     end);
     mret (bool_decide (encoded = received_signature)))
    (λ e,
      emit (Logged ERROR (lit "Failed to verify signature: " ++ str_exn w e));;
      mret false).

(** ** Answer extraction *)

(** A [for] loop whose body may raise. *)
Fixpoint fold_result {A B} (f : A → B → result A) (a : A) (l : list B)
  : result A :=
  match l with
  | [] => Ok a
  | x :: rest => a' ← f a x; fold_result f a' rest
  end.

(** Line 311: the right-hand side is evaluated before the subscript of
    the target. *)
Definition record_title (d : gmap pykey json) (field : json)
  : result (gmap pykey json) :=
  title ← py_getitem field (lit "title");
  id ← py_getitem field (lit "id");
  dict_set d id title.

Definition question_id_to_title_of (data : json) : result (gmap pykey json) :=
  fields ← py_getitem data (lit "fields");
  l ← py_iter fields;
  fold_result record_title ∅ l.

(** Lines 307-316. *)
Definition get_question_id_to_title (w : world) (data : json)
  : M (gmap pykey json) :=
  try_except (lift (question_id_to_title_of data))
    (λ e,
      send_error_to_slack w
        (lit "Failed to get question id to title: " ++ str_exn w e);;
      raise e).

(** Lines 324-349: the value of one answer. *)
Definition answer_value_of (w : world) (answer : json) : result json :=
  if py_has answer (lit "text") then py_getitem answer (lit "text")
  else if py_has answer (lit "email") then py_getitem answer (lit "email")
  else if py_has answer (lit "phone_number") then
    py_getitem answer (lit "phone_number")
  else if py_has answer (lit "date") then py_getitem answer (lit "date")
  else if py_has answer (lit "choice") then
    choice ← py_getitem answer (lit "choice");
    py_getitem choice (lit "label")
  else if py_has answer (lit "choices") then
    choices ← py_getitem answer (lit "choices");
    labels ← py_getitem choices (lit "labels");
    if py_truthy labels then
      joined ← py_join_value (lit ", ") labels;
      Ok (JStr joined)
    else py_getitem choices (lit "other")
  else if py_has answer (lit "number") then py_getitem answer (lit "number")
  else if py_has answer (lit "boolean") then py_getitem answer (lit "boolean")
  else if py_has answer (lit "file") then
    file ← py_getitem answer (lit "file");
    py_getitem file (lit "url")
  else if py_has answer (lit "payment") then
    payment ← py_getitem answer (lit "payment");
    successful ← py_getitem payment (lit "successful");
    Ok (JStr (py_str w successful))
  else if py_has answer (lit "url") then py_getitem answer (lit "url")
  else Ok (JStr (lit "Answer type not supported")).

(** Lines 323-350: one turn of the loop. *)
Definition record_answer (w : world) (d : gmap pykey json) (answer : json)
  : result (gmap pykey json) :=
  field ← py_getitem answer (lit "field");
  question_id ← py_getitem field (lit "id");
  answer_value ← answer_value_of w answer;
  dict_set d question_id answer_value.

Definition question_id_to_answer_of (w : world) (data : json)
  : result (gmap pykey json) :=
  l ← py_iter data;
  fold_result (record_answer w) ∅ l.

(** Lines 319-354. *)
Definition map_question_id_to_answer (w : world) (data : json)
  : M (gmap pykey json) :=
  try_except (lift (question_id_to_answer_of w data))
    (λ e,
      log_and_alert w
        (lit "Failed to map question id to answer: " ++ str_exn w e) None;;
      raise e).

(** ** Field resolution *)

(** Lines 103-106: one pair per defined field; the answer defaults to
    the empty string. *)
Definition question_answer_pairs_of (question_id_to_title
    question_id_to_answer : gmap pykey json) : gmap pykey (gmap pykey json) :=
  map_fold
    (λ key value pairs,
      <[key := <[KStr (lit "answer") :=
                   default (JStr (lit "")) (question_id_to_answer !! key)]>
               {[KStr (lit "title") := value]}]> pairs)
    ∅ question_id_to_title.

(** Lines 420-428.  Both receivers of [get] are dicts, so the [except]
    clause is never entered. *)
Definition safe_get_answer (question_answer_pairs : gmap pykey (gmap pykey json))
    (question_id : pystr) : json :=
  let answer_pair :=
    default {[KStr (lit "answer") := JStr (lit "Not provided")]}
            (question_answer_pairs !! KStr question_id) in
  default (JStr (lit "Not provided")) (answer_pair !! KStr (lit "answer")).

(** *** [datetime.strptime(s, "%Y-%m-%d")]

    The format compiles to the regular expression
    [(\d\d\d\d)-(1[0-2]|0[1-9]|[1-9])-(3[0-1]|[1-2]\d|0[1-9]|[1-9]| [1-9])],
    matched at the start of the string; text left after the match and a
    date that does not exist are [ValueError]s. *)

Definition between (lo hi c : Z) : bool := (lo <=? c) && (c <=? hi).

(** The value of a character matched by [\d]: an ASCII digit, or a
    decimal digit of another script as the runtime's table has it. *)
Definition digit_value (w : world) (c : Z) : option Z :=
  if between 48 57 c then Some (c - 48)
  else if c <? 128 then None
  else unicode_digit w c.

Definition expect (c : Z) (s : pystr) : option pystr :=
  match s with
  | c' :: rest => if c' =? c then Some rest else None
  | [] => None
  end.

(** [a1|a2|...] followed by the rest of the expression [k]: the first
    alternative after which [k] matches. *)
Fixpoint alternation {A B} (alts : list (pystr → option (A * pystr)))
    (k : A → pystr → option B) (s : pystr) : option B :=
  match alts with
  | [] => None
  | alt :: others =>
      match '(a, rest) ← alt s; k a rest with
      | Some b => Some b
      | None => alternation others k s
      end
  end.

Definition four_digits (w : world) (s : pystr) : option (Z * pystr) :=
  match s with
  | c1 :: c2 :: c3 :: c4 :: rest =>
      d1 ← digit_value w c1; d2 ← digit_value w c2;
      d3 ← digit_value w c3; d4 ← digit_value w c4;
      Some (1000 * d1 + 100 * d2 + 10 * d3 + d4, rest)
  | _ => None
  end.

(** [x[lo-hi]] with [x] a fixed first character. *)
Definition two_chars (first lo hi : Z) (s : pystr) : option (Z * pystr) :=
  match s with
  | a :: b :: rest =>
      if (a =? first) && between lo hi b
      then Some (10 * (a - 48) + (b - 48), rest) else None
  | _ => None
  end.

(** [[1-9]]. *)
Definition one_char (s : pystr) : option (Z * pystr) :=
  match s with
  | a :: rest => if between 49 57 a then Some (a - 48, rest) else None
  | [] => None
  end.

(** [[1-2]\d]. *)
Definition tens_digit (w : world) (s : pystr) : option (Z * pystr) :=
  match s with
  | a :: b :: rest =>
      if between 49 50 a
      then d ← digit_value w b; Some (10 * (a - 48) + d, rest) else None
  | _ => None
  end.

(** [ [1-9]]. *)
Definition space_char (s : pystr) : option (Z * pystr) :=
  rest ← expect 32 s; one_char rest.

Definition month_alts : list (pystr → option (Z * pystr)) :=
  [two_chars 49 48 50; two_chars 48 49 57; one_char].

Definition day_alts (w : world) : list (pystr → option (Z * pystr)) :=
  [two_chars 51 48 49; tens_digit w; two_chars 48 49 57; one_char; space_char].

Definition match_ymd (w : world) (s : pystr) : option (Z * Z * Z * pystr) :=
  '(y, s1) ← four_digits w s;
  s2 ← expect 45 s1;
  alternation month_alts
    (λ m s3, s4 ← expect 45 s3;
             alternation (day_alts w) (λ d s5, Some (y, m, d, s5)) s4)
    s2.

Definition is_leap (y : Z) : bool :=
  (y mod 4 =? 0) && (negb (y mod 100 =? 0) || (y mod 400 =? 0)).

Definition days_in_month (y m : Z) : Z :=
  if m =? 2 then (if is_leap y then 29 else 28)
  else if (m =? 4) || (m =? 6) || (m =? 9) || (m =? 11) then 30
  else 31.

Definition strptime_ymd (w : world) (s : pystr) : result date :=
  match match_ymd w s with
  | Some (y, m, d, []) =>
      if (1 <=? y) && (d <=? days_in_month y m)
      then Ok {| year := y; month := m; day := d |}
      else Raise ValueError
  | _ => Raise ValueError
  end.

(** [(a1, a2) < (b1, b2)] on tuples of integers. *)
Definition tuple_lt (a b : Z * Z) : bool :=
  (a.1 <? b.1) || ((a.1 =? b.1) && (a.2 <? b.2)).

(** Lines 435-436. *)
Definition age_on (current_date birthdate : date) : Z :=
  year current_date - year birthdate
  - (if tuple_lt (month current_date, day current_date)
                 (month birthdate, day birthdate) then 1 else 0).

(** Lines 431-442.  [strptime] accepts only a [str]. *)
Definition calculate_age (w : world) (birthdate_str : json) : M Z :=
  try_except
    (birthdate ← lift (match birthdate_str with
                       | JStr s => strptime_ymd w s
                       | _ => Raise TypeError
                       end);
     mret (age_on (datetime_now w) birthdate))
    (λ e,
      send_error_to_slack w
        (lit "Failed to calculate age for birthdate " ++ py_str w birthdate_str
         ++ lit ": " ++ str_exn w e);;
      raise e).

(** ** Prompt composition *)

(** Lines 357-364. *)
Definition format_cardio_detail (w : world) (first_name current_cardio
    include_cardio cardio_frequency cardio_length preferred_cardio_types : json)
  : pystr :=
  if py_eq_str current_cardio (lit "Yes") then
    lit "3. Cardio: " ++ py_str w first_name
    ++ lit " includes cardio in the workouts, doing "
    ++ py_str w cardio_frequency ++ lit " sessions of "
    ++ py_str w preferred_cardio_types ++ lit " for "
    ++ py_str w cardio_length ++ lit ". "
  else if py_eq_str include_cardio (lit "Yes") then
    lit "3. Cardio: " ++ py_str w first_name
    ++ lit " plans to start including cardio in the sessions, aiming for "
    ++ py_str w cardio_frequency ++ lit " sessions of "
    ++ py_str w preferred_cardio_types ++ lit " for "
    ++ py_str w cardio_length ++ lit ". "
  else lit "3. Cardio: Don't include cardio in any plan. ".

(** Lines 367-373.  [join] raises on an element that is not a string. *)
Definition format_environment_detail (w : world) (first_name workout_location
    gym_name available_equipment other_equipment : json) : result pystr :=
  if py_eq_str workout_location (lit "Gym") then
    Ok (lit "4. Environment: " ++ py_str w first_name ++ lit " trains at "
        ++ py_str w gym_name ++ lit ". ")
  else
    equipment ←
      (if py_truthy other_equipment then
         parts ← all_strings [available_equipment; other_equipment];
         Ok (JStr (py_join (lit ", ") parts))
       else Ok available_equipment);
    Ok (lit "4. Environment: " ++ py_str w first_name
        ++ lit " trains at home with access to " ++ py_str w equipment
        ++ lit ". ").

(** Lines 376-380. *)
Definition format_injury_detail (w : world) (first_name physical_injuries
    injury_details : json) : pystr :=
  if py_eq_str physical_injuries (lit "Yes") then
    lit "7. Injury: " ++ py_str w first_name ++ lit " has reported "
    ++ py_str w injury_details ++ lit ". "
  else [].

(** Lines 383-387. *)
Definition format_sets_reps (sets_reps sets_reps_custom : json) : json :=
  if py_eq_str sets_reps (lit "I have a different style")
  then sets_reps_custom
  else sets_reps.

(** The parameters of [generate_prompt] (lines 390-396). *)
Record prompt_args := {
  first_name : json;
  last_name : json;
  age : Z;
  gender : json;
  fitness_level : json;
  height : json;
  weight : json;
  fitness_goals : json;
  exercise_frequency : json;
  workout_duration : json;
  weightlifting_duration : json;
  number_of_exercises : json;
  sets_reps : json;
  sets_reps_custom : json;
  workout_location : json;
  available_equipment : json;
  current_cardio : json;
  include_cardio : json;
  cardio_frequency : json;
  cardio_length : json;
  preferred_cardio_types : json;
  gym_name : json;
  other_equipment : json;
  physical_injuries : json;
  injury_details : json
}.

(** Line 410, the sentence on the structure of the weightlifting part. *)
Definition weightlifting_sentence (w : world) (weightlifting_duration
    number_of_exercises formatted_sets_reps : json) : pystr :=
  lit "Each session includes " ++ py_str w weightlifting_duration
  ++ lit " of weightlifting with " ++ py_str w number_of_exercises
  ++ lit " performed in " ++ py_str w formatted_sets_reps ++ lit ". ".

(** Lines 397-417. *)
Definition generate_prompt (w : world) (a : prompt_args) : result pystr :=
  let cardio_detail :=
    format_cardio_detail w (first_name a) (current_cardio a) (include_cardio a)
      (cardio_frequency a) (cardio_length a) (preferred_cardio_types a) in
  environment_detail ←
    format_environment_detail w (first_name a) (workout_location a)
      (gym_name a) (available_equipment a) (other_equipment a);
  let injury_detail :=
    format_injury_detail w (first_name a) (physical_injuries a)
      (injury_details a) in
  let formatted_sets_reps :=
    format_sets_reps (sets_reps a) (sets_reps_custom a) in
  Ok ((lit "Create a workout for " ++ py_str w (first_name a) ++ lit " "
       ++ py_str w (last_name a) ++ lit ", " ++ py_int_str (age a)
       ++ lit " years old, " ++ py_str w (gender a) ++ lit ", fitness level: "
       ++ py_str w (fitness_level a) ++ lit ", height: " ++ py_str w (height a)
       ++ lit ", weight: " ++ py_str w (weight a) ++ lit " lbs. ")
      ++ (lit "Fitness goals: " ++ py_str w (fitness_goals a) ++ lit ". ")
      ++ (lit "Training frequency: " ++ py_str w (exercise_frequency a)
          ++ lit " sessions/week, duration: " ++ py_str w (workout_duration a)
          ++ lit " per session. ")
      ++ weightlifting_sentence w (weightlifting_duration a)
           (number_of_exercises a) formatted_sets_reps
      ++ cardio_detail
      ++ environment_detail
      ++ injury_detail
      ++ (lit "Based on " ++ py_str w (first_name a)
          ++ lit "'s preferences, create a workout with a warm-up, main exercises, cardio (if included), and a cool-down.")).

(** *** Emoji removal *)

(** The character class of lines 448-471, item by item. *)
Definition emoji_ranges : list (Z * Z) :=
  [ (0x1F1E0, 0x1F1FF); (0x1F300, 0x1F5FF); (0x1F600, 0x1F64F);
    (0x1F680, 0x1F6FF); (0x1F700, 0x1F77F); (0x1F780, 0x1F7FF);
    (0x1F800, 0x1F8FF); (0x1F900, 0x1F9FF); (0x1FA00, 0x1FA6F);
    (0x1FA70, 0x1FAFF); (0x2702, 0x27B0); (0x24C2, 0x1F251);
    (0x1F926, 0x1F937); (0x10000, 0x10FFFF); (0x200D, 0x200D);
    (0x2640, 0x2642); (0x2600, 0x2B55); (0x23CF, 0x23CF);
    (0x23E9, 0x23E9); (0x231A, 0x231A); (0x3030, 0x3030);
    (0xFE0F, 0xFE0F) ].

Definition in_emoji_class (c : Z) : bool :=
  existsb (λ r, between r.1 r.2 c) emoji_ranges.

(** Lines 445-477: [emoji_pattern.sub("", text)].  The pattern is the
    class repeated one or more times, so its matches are the maximal runs
    of characters of the class, and substituting the empty string deletes
    exactly those characters.  [text] is a [str] (the prompt), so nothing
    raises. *)
Fixpoint remove_emojis (text : pystr) : pystr :=
  match text with
  | [] => []
  | c :: rest =>
      if in_emoji_class c then remove_emojis rest
      else c :: remove_emojis rest
  end.

(** ** Services *)

(** Lines 200-204. *)
Fixpoint find_attribute (attrs : list json) (attribute_name : pystr)
  : result json :=
  match attrs with
  | [] => Ok JNull
  | attr :: rest =>
      name ← py_getitem attr (lit "Name");
      if py_eq_str name attribute_name then py_getitem attr (lit "Value")
      else find_attribute rest attribute_name
  end.

Definition get_cognito_user_attribute (attribute_list : json)
    (attribute_name : pystr) : result json :=
  attrs ← py_iter attribute_list;
  find_attribute attrs attribute_name.

(** Lines 193-197. *)
Definition get_cognito_user (g : globals) (w : world) (id : json) : M json :=
  lift (admin_get_user w (USER_POOL_ID g) id).

(** Lines 207-225. *)
Definition update_user (g : globals) (w : world) (id form_id token : json)
  : M () :=
  lift (admin_update_user_attributes w (USER_POOL_ID g) id form_id token);;
  emit (UserUpdated id form_id token).

(** Lines 228-262; both [except] clauses re-raise. *)
Definition save_to_db (g : globals) (w : world) (user_id : json)
    (prompt : pystr) : M () :=
  existing ← lift (dynamodb_query w (STORY_TABLE g) user_id);
  if negb (Nat.eqb existing 0) then
    emit (Logged INFO
            (lit "User " ++ py_str w user_id ++ lit " already has a story"))
  else
    lift (dynamodb_put_item w (STORY_TABLE g) user_id prompt);;
    emit (StorySaved user_id prompt).

(** Lines 480-498. *)
Definition send_to_slack (w : world) (prompt : pystr) : M () :=
  try_except
    (SLACK_WEBHOOK_URL ← get_parameter w (lit "slackWebhookUrl");
     let formatted_message := lit "*Prompt*:" ++ [10] ++ lit "> " ++ prompt in
     lift (post_prompt w SLACK_WEBHOOK_URL formatted_message);;
     emit (PromptPosted formatted_message))
    (λ e,
      send_error_to_slack w
        (lit "Failed to send message to Slack: " ++ str_exn w e);;
      raise e).

(** ** The handler *)

(** The dict the handler returns; [body] holds the dict that the source
    serialises with [json.dumps]. *)
Record response := { statusCode : Z; body : option json }.

Definition respond (code : Z) (detail : string) : response :=
  {| statusCode := code;
     body := Some (JObj [(lit "detail", JStr (lit detail))]) |}.

(** [s.split('=', 1)] when it yields two parts. *)
Fixpoint split_once (sep : Z) (s : pystr) : option (pystr * pystr) :=
  match s with
  | [] => None
  | c :: rest =>
      if c =? sep then Some ([], rest)
      else '(a, b) ← split_once sep rest; Some (c :: a, b)
  end.

(** Line 39: only a [str] has [split]; unpacking a single part into two
    names is a [ValueError]. *)
Definition split_signature (received_signature : json)
  : result (pystr * pystr) :=
  match received_signature with
  | JStr s =>
      match split_once 61 s with
      | Some parts => Ok parts
      | None => Raise ValueError
      end
  | _ => Raise AttributeError
  end.

(** Line 57. *)
Definition loads (w : world) (raw_body : json) : result json :=
  match raw_body with
  | JStr s => json_loads w s
  | _ => Raise TypeError
  end.

(** Lines 95-165: extraction, resolution and composition. *)
Definition build_prompt (w : world) (form_response first_name last_name : json)
  : M pystr :=
  form_definition ← lift (py_getitem form_response (lit "definition"));
  form_answers ← lift (py_getitem form_response (lit "answers"));
  question_id_to_title ← get_question_id_to_title w form_definition;
  question_id_to_answer ← map_question_id_to_answer w form_answers;
  let question_answer_pairs :=
    question_answer_pairs_of question_id_to_title question_id_to_answer in
  let birthdate := safe_get_answer question_answer_pairs (lit "VYsICm8rAEYx") in
  age ← calculate_age w birthdate;
  let get := safe_get_answer question_answer_pairs in
  prompt ← lift (generate_prompt w
    {| first_name := first_name;
       last_name := last_name;
       age := age;
       gender := get (lit "7NgJc6n3fYKa");
       fitness_level := get (lit "dN0leyRXTKwb");
       height := get (lit "Ie0vINxRmbiE");
       weight := get (lit "U00Hv7HSJJE1");
       fitness_goals := get (lit "EKEiaNAbhs9B");
       exercise_frequency := get (lit "v3luF8GH8oTn");
       workout_duration := get (lit "4qftExcBXdrX");
       weightlifting_duration := get (lit "wORIrsd4ZVLR");
       number_of_exercises := get (lit "nY5mGGjAbXgZ");
       sets_reps := get (lit "VYFQXGfIQyAy");
       sets_reps_custom := get (lit "hLOuuzKYATVt");
       workout_location := get (lit "umri0ewHbWux");
       available_equipment := get (lit "9CnfCXmUgSXo");
       current_cardio := get (lit "zYfBaTZMNkFI");
       include_cardio := get (lit "lKUgraPL2qDa");
       cardio_frequency := get (lit "ZRYPo085Loaz");
       cardio_length := get (lit "L5vTS0xxncEz");
       preferred_cardio_types := get (lit "qu9e790LtDZh");
       gym_name := get (lit "fStabAHHt7Hw");
       other_equipment := get (lit "F0T49AYX7sf2");
       physical_injuries := get (lit "zp6cr5EGryS5");
       injury_details := get (lit "TDFLXROBWg4r") |});
  mret (remove_emojis prompt).

(** Lines 166-185: notification, persistence and the signal to the
    queue. *)
Definition deliver (g : globals) (w : world) (user_id : json) (prompt : pystr)
  : M response :=
  send_to_slack w prompt;;
  saved ← attempt (save_to_db g w user_id prompt);
  match saved with
  | Raise e =>
      log_and_alert w (lit "Unable to save user story to db") (Some e);;
      mret (respond 200 "Unable to save user story to db.")
  | Ok _ =>
      sent ← attempt (lift (sqs_send_message w (QUEUE_URL g) user_id);;
                      emit (SignalSent user_id));
      match sent with
      | Raise e =>
          log_and_alert w
            (lit "Unable to send initiate generate workout flow for user "
             ++ py_str w user_id) (Some e)
      | Ok _ => mret ()
      end;;
      mret {| statusCode := 200; body := None |}
  end.

(** Lines 95-185. *)
Definition process_submission (g : globals) (w : world) (form_response user_id
    first_name last_name : json) : M response :=
  prompt ← build_prompt w form_response first_name last_name;
  deliver g w user_id prompt.

(** Lines 57-93: the identity lookup and update. *)
Definition identify_user (g : globals) (w : world) (raw_body : json)
  : M response :=
  body ← lift (loads w raw_body);
  form_response ← lift (py_getitem body (lit "form_response"));
  form_id ← lift (py_getitem form_response (lit "form_id"));
  token ← lift (py_getitem form_response (lit "token"));
  hidden ← lift (py_getitem form_response (lit "hidden"));
  user_id ← lift (py_getitem hidden (lit "user_id"));
  emit (Logged INFO (lit "Getting user info for " ++ py_str w user_id));;
  found ← attempt (get_cognito_user g w user_id);
  match found with
  | Raise UserNotFoundException =>
      log_and_alert w
        (lit "Failed to get user from cognito: User " ++ py_str w user_id
         ++ lit " not found.") None;;
      mret (respond 200 "User not found.")
  | Raise e =>
      log_and_alert w (lit "Failed to get user from cognito.") (Some e);;
      mret (respond 200 "User not found.")
  | Ok cognito_user =>
      attributes ← lift (py_getitem cognito_user (lit "UserAttributes"));
      first_name ← lift (get_cognito_user_attribute attributes
                           (lit "given_name"));
      last_name ← lift (get_cognito_user_attribute attributes
                          (lit "family_name"));
      emit (Logged INFO (lit "Updating user " ++ py_str w user_id
                         ++ lit " with typeformIds."));;
      updated ← attempt (update_user g w user_id form_id token);
      match updated with
      | Raise e =>
          log_and_alert w
            (lit "Unable to update user " ++ py_str w user_id
             ++ lit " with typeformIds.") (Some e);;
          mret (respond 200 "Unable to update user with typeformIds.")
      | Ok _ =>
          process_submission g w form_response user_id first_name last_name
      end
  end.

(** Lines 27-185. *)
Definition lambda_handler (g : globals) (w : world) (event : json)
  : M response :=
  raw_body ← lift (py_getitem event (lit "body"));
  headers ← lift (py_getitem event (lit "headers"));
  received_signature ← lift (py_get headers (lit "Typeform-Signature"));
  if negb (py_truthy received_signature) then
    log_and_alert w (lit "Webhook signature is missing. Permission denied.")
      None;;
    mret (respond 403 "Permission denied.")
  else
    '(sha_name, signature) ← lift (split_signature received_signature);
    if negb (bool_decide (sha_name = lit "sha256")) then
      log_and_alert w (lit "Webhook sha is invalid. Permission denied.") None;;
      mret (respond 403 "Operation not supported.")
    else
      is_valid ← verify_signature w signature raw_body;
      if negb is_valid then
        log_and_alert w (lit "Webhook signature is invalid. Permission denied.")
          None;;
        mret (respond 403 "Invalid signature. Permission Denied.")
      else identify_user g w raw_body.

(** ** The documented behaviour *)

(** The value-shape tags the extractor knows, in the order in which it
    checks them. *)
Definition known_tags : list pystr :=
  [ lit "text"; lit "email"; lit "phone_number"; lit "date"; lit "choice";
    lit "choices"; lit "number"; lit "boolean"; lit "file"; lit "payment";
    lit "url" ].

(** The tags present in an answer, and its shape: the first of them. *)
Definition tags_of (answer : json) : list pystr :=
  List.filter (py_has answer) known_tags.

Definition shape_of (answer : json) : option pystr :=
  List.find (py_has answer) known_tags.

(** The normalised value of an answer as the specification documents it,
    by shape: a single choice gives its label, a multiple choice its
    labels joined with a comma and a space or else its free-text other
    field, a file its URL, a payment its success flag as a string, and
    every other shape the value itself. *)
Definition documented_value (w : world) (tag : pystr) (value : json)
  : result json :=
  if bool_decide (tag = lit "choice") then py_getitem value (lit "label")
  else if bool_decide (tag = lit "choices") then
    labels ← py_getitem value (lit "labels");
    if py_truthy labels then
      joined ← py_join_value (lit ", ") labels; Ok (JStr joined)
    else py_getitem value (lit "other")
  else if bool_decide (tag = lit "file") then py_getitem value (lit "url")
  else if bool_decide (tag = lit "payment") then
    successful ← py_getitem value (lit "successful");
    Ok (JStr (py_str w successful))
  else Ok value.

(** The globals with another list of ignored field ids. *)
Definition with_ignore_field_ids (g : globals) (ids : list pystr) : globals :=
  {| QUEUE_URL := QUEUE_URL g;
     STORY_TABLE := STORY_TABLE g;
     USER_POOL_ID := USER_POOL_ID g;
     ignore_field_ids := ids |}.

(** The module as it is loaded: lines 21-23 and 290-304. *)
Definition module_globals (queue_url story_table user_pool_id : pystr)
  : globals :=
  {| QUEUE_URL := queue_url;
     STORY_TABLE := story_table;
     USER_POOL_ID := user_pool_id;
     ignore_field_ids :=
       [ lit "hyZIUMruIaXZ"; lit "DG63NL7WQMQA"; lit "Yx4jU94HrZmO";
         lit "kLdRBGA1phAA"; lit "SB28ys4LYLWo"; lit "54JOGweXXfUn";
         lit "aDs7YLH9f0NP"; lit "cFB9zg6V03V1"; lit "jzD4M5NDiXE5";
         lit "XoyWSU4xb6RZ"; lit "3o0DVt2WkDHX"; lit "Gr2JZAJzJJt1";
         lit "4VITOv32D9hb" ] |}.

(** The request: the event carries a body and headers, and the
    signature header reads [header] ([None] when it is missing). *)
Definition event_of (event raw_body header : json) : Prop :=
  py_getitem event (lit "body") = Ok raw_body
  ∧ ∃ headers, py_getitem event (lit "headers") = Ok headers
      ∧ py_get headers (lit "Typeform-Signature") = Ok header.

(** [signature] is the encoded digest of the body under the stored
    secret. *)
Definition signature_verifies (w : world) (signature : pystr) (raw_body : json)
  : Prop :=
  ∃ secret p,
    ssm_get_parameter w (lit "typeformSecret") = Ok secret
    ∧ raw_body = JStr p
    ∧ hmac_sha256_base64 w secret p = Ok signature.

(** The request passes the signature check. *)
Definition verified (w : world) (event raw_body : json) : Prop :=
  ∃ signature,
    event_of event raw_body (JStr (lit "sha256" ++ 61 :: signature))
    ∧ signature_verifies w signature raw_body.

(** The body decodes to a form response with its identifiers. *)
Definition submission_of (w : world) (raw_body form_response form_id token
    user_id : json) : Prop :=
  ∃ body hidden,
    loads w raw_body = Ok body
    ∧ py_getitem body (lit "form_response") = Ok form_response
    ∧ py_getitem form_response (lit "form_id") = Ok form_id
    ∧ py_getitem form_response (lit "token") = Ok token
    ∧ py_getitem form_response (lit "hidden") = Ok hidden
    ∧ py_getitem hidden (lit "user_id") = Ok user_id.

(** The identity store knows the user and returns both names. *)
Definition identified (g : globals) (w : world) (user_id first_name
    last_name : json) : Prop :=
  ∃ cognito_user attributes,
    admin_get_user w (USER_POOL_ID g) user_id = Ok cognito_user
    ∧ py_getitem cognito_user (lit "UserAttributes") = Ok attributes
    ∧ get_cognito_user_attribute attributes (lit "given_name") = Ok first_name
    ∧ get_cognito_user_attribute attributes (lit "family_name") = Ok last_name.

(** The request gets as far as the extraction: it is verified, decoded,
    and the user is found and updated. *)
Definition accepted (g : globals) (w : world) (event form_response user_id
    first_name last_name : json) : Prop :=
  ∃ raw_body form_id token,
    verified w event raw_body
    ∧ submission_of w raw_body form_response form_id token user_id
    ∧ identified g w user_id first_name last_name
    ∧ admin_update_user_attributes w (USER_POOL_ID g) user_id form_id token
      = Ok ().

(** Effects that process the submission, as opposed to logs and alerts. *)
Definition is_processing (e : effect) : bool :=
  match e with
  | UserUpdated _ _ _ | PromptPosted _ | StorySaved _ _ | SignalSent _ => true
  | Logged _ _ | AlertPosted _ => false
  end.

Definition is_signal (e : effect) : bool :=
  match e with SignalSent _ => true | _ => false end.

(** A run of the handler from trace [tr] answers with [r], having added
    the effects [new]. *)
Definition answers (run : M response) (tr : list effect) (r : response)
    (new : list effect) : Prop :=
  run tr = (Ok r, new ++ tr).

(** An alert was posted; nothing was done for the submission; no signal
    went to the queue. *)
Definition alerted (new : list effect) : Prop :=
  ∃ text, AlertPosted text ∈ new.

Definition idle (new : list effect) : Prop :=
  ∀ e, e ∈ new → is_processing e = false.

Definition unsignalled (new : list effect) : Prop :=
  ∀ e, e ∈ new → is_signal e = false.

(** A computation raises whatever has happened before; it returns [a]
    without any effect. *)
Definition raises {A} (run : M A) : Prop :=
  ∀ tr, ∃ e tr', run tr = (Raise e, tr').

Definition returns {A} (run : M A) (a : A) : Prop :=
  ∀ tr, run tr = (Ok a, tr).

(** The outcomes of the notification and of the persistence write. *)
Definition notified (w : world) (prompt : pystr) : Prop :=
  ∃ url,
    ssm_get_parameter w (lit "slackWebhookUrl") = Ok url
    ∧ post_prompt w url (lit "*Prompt*:" ++ [10] ++ lit "> " ++ prompt) = Ok ().

Definition notification_fails (w : world) (prompt : pystr) : Prop :=
  (∃ e, ssm_get_parameter w (lit "slackWebhookUrl") = Raise e)
  ∨ (∃ url e,
       ssm_get_parameter w (lit "slackWebhookUrl") = Ok url
       ∧ post_prompt w url (lit "*Prompt*:" ++ [10] ++ lit "> " ++ prompt)
         = Raise e).

Definition stored (g : globals) (w : world) (user_id : json) (prompt : pystr)
  : Prop :=
  (∃ n, dynamodb_query w (STORY_TABLE g) user_id = Ok (S n))
  ∨ (dynamodb_query w (STORY_TABLE g) user_id = Ok 0%nat
     ∧ dynamodb_put_item w (STORY_TABLE g) user_id prompt = Ok ()).

(** The alert webhook answers every post. *)
Definition alerts_delivered (w : world) : Prop :=
  ∀ n text, post_alert w n text = Ok ().

(** The alert webhook of the module as it is committed: line 503 holds
    the text YOUR_SLACK_WEBHOOK_URL_HERE, which has no scheme, and
    [requests.post] refuses such an address before anything is sent.
    Every post raises. *)
Definition alerts_refused (w : world) : Prop :=
  ∀ n text, ∃ e, post_alert w n text = Raise e.

(** An answer [r] that comes behind an alert, from the trace [tr]: the
    log entry and the alert are added, and the outcome is [r] when the
    post to the alert webhook returns and the error of the post when it
    raises. *)
Definition behind_alert (w : world) (tr : list effect) (message : pystr)
    (error : option exn) (r : response) : result response * list effect :=
  let text :=
    message ++ lit ". Error: " ++ from_option (str_exn w) (lit "None") error in
  (match post_alert w (length (filter is_alert tr)) text with
   | Ok _ => Ok r
   | Raise e => Raise e
   end,
   AlertPosted text :: Logged ERROR message :: tr).

(** ** Sample data *)

Module Sample.

(** A world in which every service answers. *)
Definition quiet : world :=
  {| repr_container := λ _, lit "[...]";
     str_exn := λ _, lit "error";
     unicode_digit := λ _, None;
     json_loads := λ _, Raise ValueError;
     hmac_sha256_base64 := λ key payload, Ok (key ++ payload);
     datetime_now := {| year := 2024; month := 6; day := 14 |};
     ssm_get_parameter := λ _, Ok (lit "secret");
     admin_get_user := λ _ _, Raise UserNotFoundException;
     admin_update_user_attributes := λ _ _ _ _, Ok ();
     dynamodb_query := λ _ _, Ok 0%nat;
     dynamodb_put_item := λ _ _ _, Ok ();
     sqs_send_message := λ _ _, Ok ();
     post_prompt := λ _ _, Ok ();
     post_alert := λ _ _, Ok () |}.

Definition on_date (w : world) (d : date) : world :=
  {| repr_container := repr_container w;
     str_exn := str_exn w;
     unicode_digit := unicode_digit w;
     json_loads := json_loads w;
     hmac_sha256_base64 := hmac_sha256_base64 w;
     datetime_now := d;
     ssm_get_parameter := ssm_get_parameter w;
     admin_get_user := admin_get_user w;
     admin_update_user_attributes := admin_update_user_attributes w;
     dynamodb_query := dynamodb_query w;
     dynamodb_put_item := dynamodb_put_item w;
     sqs_send_message := sqs_send_message w;
     post_prompt := post_prompt w;
     post_alert := post_alert w |}.

Definition answer_for (id : string) (tag : string) (value : json) : json :=
  JObj [ (lit "field", JObj [(lit "id", JStr (lit id))]); (lit tag, value) ].

Definition text_answer : json :=
  answer_for "Ie0vINxRmbiE" "text" (JStr (lit "180 cm")).

Definition multi_choice_AB : json :=
  answer_for "9CnfCXmUgSXo" "choices"
    (JObj [(lit "labels", JArr [JStr (lit "A"); JStr (lit "B")])]).

Definition multi_choice_custom : json :=
  answer_for "9CnfCXmUgSXo" "choices"
    (JObj [(lit "labels", JArr []); (lit "other", JStr (lit "Custom"))]).

Definition multi_choice_without_other : json :=
  answer_for "9CnfCXmUgSXo" "choices" (JObj [(lit "labels", JArr [])]).

Definition untagged_answer : json :=
  JObj [ (lit "field", JObj [(lit "id", JStr (lit "zp6cr5EGryS5"))]);
         (lit "type", JStr (lit "ranking")) ].

(** "Café" followed by a space, U+1F389 and U+1F525. *)
Definition cafe_party : pystr := [67; 97; 102; 233; 32; 0x1F389; 0x1F525].
Definition cafe : pystr := [67; 97; 102; 233; 32].


Definition deployed : globals :=
  module_globals (lit "https://sqs.example/queue") (lit "stories")
    (lit "pool-1").

(** A form with three defined fields, the second of which is on the
    ignore list, and an answer to the first and the third. *)
Definition form_definition : json :=
  JObj [(lit "fields",
         JArr [ JObj [(lit "id", JStr (lit "VYsICm8rAEYx"));
                      (lit "title", JStr (lit "Birthdate"))];
                JObj [(lit "id", JStr (lit "hyZIUMruIaXZ"));
                      (lit "title", JStr (lit "Welcome"))];
                JObj [(lit "id", JStr (lit "9CnfCXmUgSXo"));
                      (lit "title", JStr (lit "Equipment"))] ])].

Definition birthdate_answer : json :=
  answer_for "VYsICm8rAEYx" "date" (JStr (lit "1990-06-15")).

Definition form_response (answers : list json) : json :=
  JObj [ (lit "form_id", JStr (lit "form-1"));
         (lit "token", JStr (lit "token-1"));
         (lit "hidden", JObj [(lit "user_id", JStr (lit "user-1"))]);
         (lit "definition", form_definition);
         (lit "answers", JArr answers) ].

Definition cognito_user : json :=
  JObj [(lit "UserAttributes",
         JArr [ JObj [(lit "Name", JStr (lit "given_name"));
                      (lit "Value", JStr (lit "Ana"))];
                JObj [(lit "Name", JStr (lit "family_name"));
                      (lit "Value", JStr (lit "Silva"))] ])].

(** A world in which every service answers, the body decodes to a
    form response with the given answers, and the digest of a body
    under a key is written as the key followed by the body. *)
Definition served (answers : list json) : world :=
  {| repr_container := λ _, lit "[...]";
     str_exn := λ _, lit "error";
     unicode_digit := λ _, None;
     json_loads := λ _, Ok (JObj [(lit "form_response",
                                   form_response answers)]);
     hmac_sha256_base64 := λ key payload, Ok (key ++ payload);
     datetime_now := {| year := 2024; month := 6; day := 14 |};
     ssm_get_parameter := λ _, Ok (lit "secret");
     admin_get_user := λ _ _, Ok cognito_user;
     admin_update_user_attributes := λ _ _ _ _, Ok ();
     dynamodb_query := λ _ _, Ok 0%nat;
     dynamodb_put_item := λ _ _ _, Ok ();
     sqs_send_message := λ _ _, Ok ();
     post_prompt := λ _ _, Ok ();
     post_alert := λ _ _, Ok () |}.

(** The same world with the alert webhook out of reach. *)
Definition alerts_down (w : world) : world :=
  {| repr_container := repr_container w;
     str_exn := str_exn w;
     unicode_digit := unicode_digit w;
     json_loads := json_loads w;
     hmac_sha256_base64 := hmac_sha256_base64 w;
     datetime_now := datetime_now w;
     ssm_get_parameter := ssm_get_parameter w;
     admin_get_user := admin_get_user w;
     admin_update_user_attributes := admin_update_user_attributes w;
     dynamodb_query := dynamodb_query w;
     dynamodb_put_item := dynamodb_put_item w;
     sqs_send_message := sqs_send_message w;
     post_prompt := post_prompt w;
     post_alert := λ _ _, Raise (ExternalError 0) |}.

(** The same world with the queue out of reach. *)
Definition queue_down (w : world) : world :=
  {| repr_container := repr_container w;
     str_exn := str_exn w;
     unicode_digit := unicode_digit w;
     json_loads := json_loads w;
     hmac_sha256_base64 := hmac_sha256_base64 w;
     datetime_now := datetime_now w;
     ssm_get_parameter := ssm_get_parameter w;
     admin_get_user := admin_get_user w;
     admin_update_user_attributes := admin_update_user_attributes w;
     dynamodb_query := dynamodb_query w;
     dynamodb_put_item := dynamodb_put_item w;
     sqs_send_message := λ _ _, Raise (ExternalError 1);
     post_prompt := post_prompt w;
     post_alert := post_alert w |}.

Definition signed_event : json :=
  JObj [ (lit "body", JStr (lit "payload"));
         (lit "headers",
          JObj [(lit "Typeform-Signature",
                 JStr (lit "sha256=secretpayload"))]) ].

Definition unsigned_event : json :=
  JObj [ (lit "body", JStr (lit "payload")); (lit "headers", JObj []) ].

End Sample.

(** ** Runs and what they leave behind *)

(** Every run of [run] adds effects [new] to the trace, and its outcome
    and [new] satisfy [Q]. *)
Definition spec {A} (run : M A) (Q : result A → list effect → Prop) : Prop :=
  ∀ tr, ∃ new, (run tr).2 = new ++ tr ∧ Q (run tr).1 new.

(** [Q] is asked of the responses only. *)
Definition on_response {A} (Q : A → list effect → Prop)
  : result A → list effect → Prop :=
  λ r new, ∀ a, r = Ok a → Q a new.

(** The effects of a computation all satisfy [P]. *)
Definition emits {A} (P : effect → Prop) : result A → list effect → Prop :=
  λ _ new, Forall P new.

(** An effect that is a log entry or an alert; any effect. *)
Definition log_or_alert (e : effect) : Prop := is_processing e = false.

Definition anything (e : effect) : Prop := True.

(** What the handler has done when it answers. *)
Definition discipline (resp : response) (new : list effect) : Prop :=
  (statusCode resp = 403 ∧ body resp ≠ None ∧ idle new ∧ alerted new)
  ∨ (statusCode resp = 200
     ∧ (body resp ≠ None → alerted new)
     ∧ (body resp = None →
        (∃ user_id form_id token, UserUpdated user_id form_id token ∈ new)
        ∧ ∃ text, PromptPosted text ∈ new)).

(** The same for the code after the identity update. *)
Definition delivered (resp : response) (new : list effect) : Prop :=
  statusCode resp = 200
  ∧ (body resp ≠ None → alerted new)
  ∧ (body resp = None → ∃ text, PromptPosted text ∈ new).

(** A soft answer: 200, with an alert behind every detail. *)
Definition soft (resp : response) (new : list effect) : Prop :=
  statusCode resp = 200 ∧ (body resp ≠ None → alerted new).

(** The responses of the code that follows the signature check. *)
Definition processed (resp : response) (new : list effect) : Prop :=
  statusCode resp = 200
  ∧ (body resp ≠ None → alerted new)
  ∧ (body resp = None →
     (∃ user_id form_id token, UserUpdated user_id form_id token ∈ new)
     ∧ ∃ text, PromptPosted text ∈ new).

(** A value that is a [str]. *)
Definition is_str (v : json) : bool :=
  match v with JStr _ => true | _ => false end.

(** The key under which an answer is stored. *)
Definition answer_key (answer : json) : option pykey :=
  match py_getitem answer (lit "field") with
  | Ok field =>
      match py_getitem field (lit "id") with
      | Ok id => to_key id
      | Raise _ => None
      end
  | Raise _ => None
  end.

(** [a] is not after [b] in the calendar. *)
Definition date_le (a b : date) : Prop :=
  year a < year b
  ∨ (year a = year b
     ∧ (month a < month b ∨ (month a = month b ∧ day a ≤ day b))).


(** ** More sample data *)

Module Scenario.

(** A member of a gym who already does cardio and reports no injury. *)
Definition gym_args : prompt_args :=
  {| first_name := JStr (lit "Ana");
     last_name := JStr (lit "Silva");
     age := 33;
     gender := JStr (lit "Female");
     fitness_level := JStr (lit "Intermediate");
     height := JStr (lit "5'6");
     weight := JStr (lit "140");
     fitness_goals := JStr (lit "Build muscle");
     exercise_frequency := JStr (lit "4");
     workout_duration := JStr (lit "60 minutes");
     weightlifting_duration := JStr (lit "45 minutes");
     number_of_exercises := JStr (lit "5 exercises");
     sets_reps := JStr (lit "3x10");
     sets_reps_custom := JStr (lit "Not provided");
     workout_location := JStr (lit "Gym");
     available_equipment := JStr (lit "Not provided");
     current_cardio := JStr (lit "Yes");
     include_cardio := JStr (lit "Not provided");
     cardio_frequency := JStr (lit "2");
     cardio_length := JStr (lit "20 minutes");
     preferred_cardio_types := JStr (lit "Running");
     gym_name := JStr (lit "Iron Temple");
     other_equipment := JStr (lit "Not provided");
     physical_injuries := JStr (lit "No");
     injury_details := JStr (lit "Not provided") |}.

(** The same member with other values in the answers that the prompt
    does not read. *)
Definition gym_args_varied : prompt_args :=
  {| first_name := JStr (lit "Ana");
     last_name := JStr (lit "Silva");
     age := 33;
     gender := JStr (lit "Female");
     fitness_level := JStr (lit "Intermediate");
     height := JStr (lit "5'6");
     weight := JStr (lit "140");
     fitness_goals := JStr (lit "Build muscle");
     exercise_frequency := JStr (lit "4");
     workout_duration := JStr (lit "60 minutes");
     weightlifting_duration := JStr (lit "45 minutes");
     number_of_exercises := JStr (lit "5 exercises");
     sets_reps := JStr (lit "3x10");
     sets_reps_custom := JStr (lit "Drop sets");
     workout_location := JStr (lit "Gym");
     available_equipment := JInt 3;
     current_cardio := JStr (lit "Yes");
     include_cardio := JStr (lit "Yes");
     cardio_frequency := JStr (lit "2");
     cardio_length := JStr (lit "20 minutes");
     preferred_cardio_types := JStr (lit "Running");
     gym_name := JStr (lit "Iron Temple");
     other_equipment := JBool true;
     physical_injuries := JStr (lit "No");
     injury_details := JStr (lit "Left knee") |}.

(** Training at home, with a number answered for the other equipment. *)
Definition home_args : prompt_args :=
  {| first_name := JStr (lit "Ana");
     last_name := JStr (lit "Silva");
     age := 33;
     gender := JStr (lit "Female");
     fitness_level := JStr (lit "Intermediate");
     height := JStr (lit "5'6");
     weight := JStr (lit "140");
     fitness_goals := JStr (lit "Build muscle");
     exercise_frequency := JStr (lit "4");
     workout_duration := JStr (lit "60 minutes");
     weightlifting_duration := JStr (lit "45 minutes");
     number_of_exercises := JStr (lit "5 exercises");
     sets_reps := JStr (lit "3x10");
     sets_reps_custom := JStr (lit "Not provided");
     workout_location := JStr (lit "Home");
     available_equipment := JStr (lit "Dumbbells");
     current_cardio := JStr (lit "No");
     include_cardio := JStr (lit "No");
     cardio_frequency := JStr (lit "Not provided");
     cardio_length := JStr (lit "Not provided");
     preferred_cardio_types := JStr (lit "Not provided");
     gym_name := JStr (lit "Not provided");
     other_equipment := JInt 2;
     physical_injuries := JStr (lit "No");
     injury_details := JStr (lit "Not provided") |}.

(** A family name and a given name in kanji, U+5C71 U+7530 and U+592A
    U+90CE, with a space between them. *)
Definition japanese_name : pystr := [0x5C71; 0x7530; 32; 0x592A; 0x90CE].

(** A signature header without the separator. *)
Definition unsplit_event : json :=
  JObj [ (lit "body", JStr (lit "payload"));
         (lit "headers",
          JObj [(lit "Typeform-Signature", JStr (lit "sha256"))]) ].

(** A world whose parameter store is out of reach. *)
Definition secrets_down (w : world) : world :=
  {| repr_container := repr_container w;
     str_exn := str_exn w;
     unicode_digit := unicode_digit w;
     json_loads := json_loads w;
     hmac_sha256_base64 := hmac_sha256_base64 w;
     datetime_now := datetime_now w;
     ssm_get_parameter := λ _, Raise (ExternalError 2);
     admin_get_user := admin_get_user w;
     admin_update_user_attributes := admin_update_user_attributes w;
     dynamodb_query := dynamodb_query w;
     dynamodb_put_item := dynamodb_put_item w;
     sqs_send_message := sqs_send_message w;
     post_prompt := post_prompt w;
     post_alert := post_alert w |}.

End Scenario.

(** * Properties *)

(** ** Values and loops *)

Lemma py_getitem_dict v k x :
  py_getitem v k = Ok x → ∃ kvs, v = JObj kvs ∧ assoc k kvs = Some x.
Proof.
  destruct v; simpl; try discriminate.
  destruct (assoc k members) eqn:E; intros [= <-]. eauto.
Qed.

Lemma py_getitem_has v k x : py_getitem v k = Ok x → py_has v k = true.
Proof.
  intros (kvs & -> & H)%py_getitem_dict. simpl. rewrite H.
  by apply bool_decide_eq_true_2.
Qed.

Lemma py_has_getitem v k : py_has v k = true → ∃ x, py_getitem v k = Ok x.
Proof.
  destruct v; simpl; try discriminate.
  intros [x Hx]%bool_decide_eq_true. rewrite Hx. eauto.
Qed.

Lemma fold_result_snoc {A B} (f : A → B → result A) a l x :
  fold_result f a (l ++ [x]) = (a' ← fold_result f a l; f a' x).
Proof.
  revert a. induction l as [|y l IH]; intros a; simpl.
  - by destruct (f a x).
  - destruct (f a y); simpl; [apply IH | done].
Qed.

(** The first tag present decides the value. *)
Lemma answer_value_by_precedence w answer tag value r :
  shape_of answer = Some tag →
  py_getitem answer tag = Ok value →
  documented_value w tag value = Ok r →
  answer_value_of w answer = Ok r.
Proof.
  unfold shape_of, known_tags, answer_value_of. simpl.
  repeat match goal with
  | |- context [py_has answer ?t] => destruct (py_has answer t) eqn:?
  end; intros [= <-] Hv; rewrite Hv; simpl; try done.
Qed.

Lemma find_head_filter {A} (f : A → bool) l :
  List.find f l = head (List.filter f l).
Proof. induction l as [|x l IH]; simpl; [done|]. by destruct (f x). Qed.

Lemma shape_of_single answer tag : tags_of answer = [tag] → shape_of answer = Some tag.
Proof. unfold shape_of, tags_of. rewrite find_head_filter. by intros ->. Qed.

Lemma shape_of_none answer : tags_of answer = [] → shape_of answer = None.
Proof. unfold shape_of, tags_of. rewrite find_head_filter. by intros ->. Qed.

Lemma answer_value_unknown w answer :
  shape_of answer = None →
  answer_value_of w answer = Ok (JStr (lit "Answer type not supported")).
Proof.
  unfold shape_of, known_tags, answer_value_of. simpl.
  repeat match goal with
  | |- context [py_has answer ?t] => destruct (py_has answer t) eqn:?
  end; done.
Qed.

Lemma map_question_id_to_answer_ok w data d tr :
  question_id_to_answer_of w data = Ok d →
  map_question_id_to_answer w data tr = (Ok d, tr).
Proof. intros H. unfold map_question_id_to_answer, try_except, lift. by rewrite H. Qed.

Lemma question_id_to_answer_snoc w answers answer :
  question_id_to_answer_of w (JArr (answers ++ [answer])) =
  (d ← question_id_to_answer_of w (JArr answers); record_answer w d answer).
Proof. unfold question_id_to_answer_of. simpl. apply fold_result_snoc. Qed.

(** Claim C1.  An answer that carries exactly one of the known shape
    tags is normalised as documented for that tag: the value itself for
    text, email, phone_number, date, number, boolean and url, the label
    of a choice, the joined labels (or else the other field) of choices,
    the url of a file, the success flag of a payment as a string.  With
    several tags present the first in the order of [known_tags] decides.
    An answer with none of the tags has its field id mapped to "Answer
    type not supported".  In each case the extraction returns, with no
    effect. *)
Theorem extraction_normalises_by_shape w answers d answer field question_id
    key tr :
  question_id_to_answer_of w (JArr answers) = Ok d →
  py_getitem answer (lit "field") = Ok field →
  py_getitem field (lit "id") = Ok question_id →
  to_key question_id = Some key →
  (∀ tag value r,
     tags_of answer = [tag] →
     py_getitem answer tag = Ok value →
     documented_value w tag value = Ok r →
     map_question_id_to_answer w (JArr (answers ++ [answer])) tr
     = (Ok (<[key := r]> d), tr))
  ∧ (∀ tag value r,
     shape_of answer = Some tag →
     py_getitem answer tag = Ok value →
     documented_value w tag value = Ok r →
     map_question_id_to_answer w (JArr (answers ++ [answer])) tr
     = (Ok (<[key := r]> d), tr))
  ∧ (tags_of answer = [] →
     map_question_id_to_answer w (JArr (answers ++ [answer])) tr
     = (Ok (<[key := JStr (lit "Answer type not supported")]> d), tr)).
Proof.
  intros Hd Hfield Hid Hkey.
  assert (Hstep : ∀ r, answer_value_of w answer = Ok r →
            map_question_id_to_answer w (JArr (answers ++ [answer])) tr
            = (Ok (<[key := r]> d), tr)).
  { intros r Hr. apply map_question_id_to_answer_ok.
    rewrite question_id_to_answer_snoc, Hd. simpl.
    unfold record_answer. rewrite Hfield. simpl. rewrite Hid. simpl.
    rewrite Hr. simpl. unfold dict_set. by rewrite Hkey. }
  split; [|split].
  - intros tag value r Htags Hvalue Hdoc. apply Hstep.
    eapply answer_value_by_precedence; eauto using shape_of_single.
  - intros tag value r Hshape Hvalue Hdoc. apply Hstep.
    by eapply answer_value_by_precedence.
  - intros Htags. apply Hstep, answer_value_unknown, shape_of_none, Htags.
Qed.

Lemma all_strings_JStr (labels : list pystr) : all_strings (JStr <$> labels) = Ok labels.
Proof.
  induction labels as [|s l IH]; [done|].
  rewrite fmap_cons. cbn [all_strings]. by rewrite IH.
Qed.

Lemma shape_choices_value w answer choices :
  shape_of answer = Some (lit "choices") →
  py_getitem answer (lit "choices") = Ok choices →
  answer_value_of w answer = documented_value w (lit "choices") choices.
Proof.
  unfold shape_of, known_tags, answer_value_of. simpl.
  repeat match goal with
  | |- context [py_has answer ?t] => destruct (py_has answer t) eqn:?
  end; intros Heq Hv;
    first [ by rewrite Hv | exfalso; vm_compute in Heq; discriminate ].
Qed.

Lemma documented_choices w choices :
  documented_value w (lit "choices") choices =
  (labels ← py_getitem choices (lit "labels");
   if py_truthy labels then
     joined ← py_join_value (lit ", ") labels; Ok (JStr joined)
   else py_getitem choices (lit "other")).
Proof. reflexivity. Qed.

Lemma py_join_value_strings sep (labels : list pystr) :
  py_join_value sep (JArr (JStr <$> labels)) = Ok (py_join sep labels).
Proof.
  unfold py_join_value. cbn [py_iter mbind result_bind].
  by rewrite all_strings_JStr.
Qed.

(** Claim C2.  A multiple-choice answer with labels is normalised to the
    labels joined with a comma and a space, and one with an empty list
    of labels to its free-text other value; labels A and B give "A, B",
    and no labels with the other value Custom give "Custom". *)
Theorem multi_choice_join w :
  (∀ answer choices,
     shape_of answer = Some (lit "choices") →
     py_getitem answer (lit "choices") = Ok choices →
     (∀ labels : list pystr,
        labels ≠ [] →
        py_getitem choices (lit "labels") = Ok (JArr (JStr <$> labels)) →
        answer_value_of w answer = Ok (JStr (py_join (lit ", ") labels)))
     ∧ (∀ other,
        py_getitem choices (lit "labels") = Ok (JArr []) →
        py_getitem choices (lit "other") = Ok other →
        answer_value_of w answer = Ok other))
  ∧ answer_value_of w Sample.multi_choice_AB = Ok (JStr (lit "A, B"))
  ∧ answer_value_of w Sample.multi_choice_custom = Ok (JStr (lit "Custom")).
Proof.
  split; [|done].
  intros answer choices Hshape Hchoices.
  rewrite (shape_choices_value w _ _ Hshape Hchoices), documented_choices.
  split.
  - intros labels Hne Hlabels. rewrite Hlabels. cbn [mbind result_bind].
    replace (py_truthy (JArr (JStr <$> labels))) with true
      by (by destruct labels).
    by rewrite py_join_value_strings.
  - intros other Hlabels Hother. by rewrite Hlabels.
Qed.

Lemma py_has_false_getitem v k x :
  py_getitem v k = Ok x →
  ∀ k', py_has v k' = false → py_getitem v k' = Raise (KeyError k').
Proof.
  intros (kvs & -> & _)%py_getitem_dict k'. simpl.
  destruct (assoc k' kvs) eqn:E; [|done].
  intros H%bool_decide_eq_false. destruct H. eauto.
Qed.

Lemma extraction_failure_is_raised w data e tr :
  question_id_to_answer_of w data = Raise e →
  ∃ e' tr', map_question_id_to_answer w data tr = (Raise e', tr').
Proof.
  intros H. unfold map_question_id_to_answer, try_except, lift. rewrite H.
  unfold log_and_alert, mbind, M_bind, emit, send_error_to_slack, raise, lift.
  destruct (post_alert _ _ _); eauto.
Qed.

(** ** Emoji removal *)

Lemma remove_emojis_filter text :
  remove_emojis text = filter (λ c, in_emoji_class c = false) text.
Proof.
  induction text as [|c text IH]; [done|]. simpl.
  rewrite filter_cons. destruct (in_emoji_class c) eqn:E.
  - rewrite decide_False by done. exact IH.
  - rewrite decide_True by done. by rewrite IH.
Qed.

Lemma below_emoji_class c : c < 0x200D → in_emoji_class c = false.
Proof.
  intros H. unfold in_emoji_class, emoji_ranges, between. simpl.
  repeat (rewrite orb_false_iff; split); try reflexivity;
    apply andb_false_iff; left; apply Z.leb_gt; lia.
Qed.

(** What the removal keeps: it deletes the code points of the character
    class and keeps every other character, in order; it is the identity
    on text below U+200D (ASCII, Latin-1 and the extended Latin blocks
    with the accented letters), and it maps "Café" followed by a space
    and two emoji to "Café" followed by the space. *)
Lemma remove_emojis_filters_class :
  (∀ text, remove_emojis text = filter (λ c, in_emoji_class c = false) text)
  ∧ (∀ text c, c ∈ remove_emojis text ↔ c ∈ text ∧ in_emoji_class c = false)
  ∧ (∀ text, Forall (λ c, c < 0x200D) text → remove_emojis text = text)
  ∧ remove_emojis Sample.cafe_party = Sample.cafe.
Proof.
  split; [exact remove_emojis_filter|]. split; [|split; [|reflexivity]].
  - intros text c. rewrite remove_emojis_filter, list_elem_of_filter. tauto.
  - intros text H. induction H as [|c text Hc _ IH]; [done|]. simpl.
    by rewrite (below_emoji_class c Hc), IH.
Qed.

Lemma within_emoji_class c :
  0x24C2 ≤ c → c ≤ 0x10FFFF → in_emoji_class c = true.
Proof.
  intros Hlo Hhi. unfold in_emoji_class, emoji_ranges, between.
  cbn [existsb fst snd]. rewrite !orb_true_iff, !andb_true_iff, !Z.leb_le.
  lia.
Qed.

(** Claim C3.  The removal does not preserve every character that is
    not an emoji: the class reaches from U+24C2 to U+10FFFF without a
    gap, and letters in that range are deleted.  Of a name in kanji with
    a space in it only the space is left, of "ﬁt" written with the
    ligature U+FB01 only the "t", of a Latin Extended-C letter and a
    fullwidth Latin A nothing, and a prompt loses the name it is written
    for; a text written wholly between U+24C2 and U+10FFFF is deleted
    altogether. *)
Theorem remove_emojis_deletes_letters :
  remove_emojis Scenario.japanese_name = [32]
  ∧ remove_emojis [0xFB01; 116] = [116]
  ∧ remove_emojis [0x2C67; 0xFF21] = []
  ∧ remove_emojis
      (lit "Create a workout for " ++ Scenario.japanese_name ++ lit ", 33")
    = lit "Create a workout for  , 33"
  ∧ (∀ text, Forall (λ c, 0x24C2 ≤ c ∧ c ≤ 0x10FFFF) text →
       remove_emojis text = []).
Proof.
  repeat split; try reflexivity.
  intros text H. induction H as [|c text [Hlo Hhi] _ IH]; [done|].
  cbn [remove_emojis]. by rewrite (within_emoji_class c Hlo Hhi).
Qed.

(** ** Age *)

Lemma tuple_lt_spec a1 a2 b1 b2 :
  tuple_lt (a1, a2) (b1, b2) = true ↔ a1 < b1 ∨ (a1 = b1 ∧ a2 < b2).
Proof. unfold tuple_lt. simpl. lia. Qed.

Lemma calculate_age_parsed w s birthdate tr :
  strptime_ymd w s = Ok birthdate →
  calculate_age w (JStr s) tr = (Ok (age_on (datetime_now w) birthdate), tr).
Proof. intros H. unfold calculate_age, try_except, lift, mbind, M_bind. by rewrite H. Qed.

Lemma strptime_sample w :
  strptime_ymd w (lit "1990-06-15") = Ok {| year := 1990; month := 6; day := 15 |}.
Proof. reflexivity. Qed.

(** Claim C4.  For a birthdate that parses, the age is the difference of
    the years, less one exactly when the month and day of today come
    before those of the birthdate; the birthdate 1990-06-15 gives 33 on
    2024-06-14 and 34 from 2024-06-15 to the end of that year. *)
Theorem calculate_age_by_birthday w :
  (∀ s birthdate tr,
     strptime_ymd w s = Ok birthdate →
     let today := datetime_now w in
     (month today < month birthdate
      ∨ (month today = month birthdate ∧ day today < day birthdate) →
      calculate_age w (JStr s) tr = (Ok (year today - year birthdate - 1), tr))
     ∧ (¬ (month today < month birthdate
           ∨ (month today = month birthdate ∧ day today < day birthdate)) →
        calculate_age w (JStr s) tr = (Ok (year today - year birthdate), tr)))
  ∧ (∀ tr, datetime_now w = {| year := 2024; month := 6; day := 14 |} →
       calculate_age w (JStr (lit "1990-06-15")) tr = (Ok 33, tr))
  ∧ (∀ tr m d, datetime_now w = {| year := 2024; month := m; day := d |} →
       6 < m ∨ (m = 6 ∧ 15 ≤ d) →
       calculate_age w (JStr (lit "1990-06-15")) tr = (Ok 34, tr)).
Proof.
  split; [|split].
  - intros s birthdate tr Hparse today.
    rewrite (calculate_age_parsed w s birthdate tr Hparse).
    unfold age_on. fold today.
    pose proof (tuple_lt_spec (month today) (day today)
                  (month birthdate) (day birthdate)) as Hlt.
    destruct (tuple_lt _ _); split; intros H.
    + done.
    + destruct H. by apply Hlt.
    + apply Hlt in H. discriminate.
    + do 2 f_equal. lia.
  - intros tr Hnow.
    rewrite (calculate_age_parsed w _ _ tr (strptime_sample w)), Hnow. done.
  - intros tr m d Hnow Hlater.
    rewrite (calculate_age_parsed w _ _ tr (strptime_sample w)), Hnow.
    unfold age_on. simpl.
    replace (tuple_lt (m, d) (6, 15)) with false; [done|].
    symmetry. apply not_true_is_false. rewrite tuple_lt_spec. lia.
Qed.

(** ** Resolution *)

Lemma lookup_question_answer_pairs (titles answers : gmap pykey json) key :
  question_answer_pairs_of titles answers !! key =
  (λ title, <[KStr (lit "answer") := default (JStr (lit "")) (answers !! key)]>
              ({[KStr (lit "title") := title]} : gmap pykey json))
  <$> titles !! key.
Proof.
  unfold question_answer_pairs_of. revert key.
  apply (map_fold_weak_ind (λ pairs (m : gmap pykey json), ∀ key,
    pairs !! key =
    (λ title, <[KStr (lit "answer") := default (JStr (lit "")) (answers !! key)]>
                ({[KStr (lit "title") := title]} : gmap pykey json))
    <$> m !! key)).
  - intros key. by rewrite !lookup_empty.
  - intros i x m pairs Hi IH key. destruct (decide (i = key)) as [->|Hne].
    + by rewrite !lookup_insert_eq.
    + rewrite !lookup_insert_ne by done. apply IH.
Qed.

Lemma pair_answer (title a : json) :
  (<[KStr (lit "answer") := a]> ({[KStr (lit "title") := title]} : gmap pykey json))
    !! KStr (lit "answer") = Some a.
Proof. apply lookup_insert_eq. Qed.

(** Claim C5.  Resolution returns the stored answer of a field that is
    in the map and "Not provided" for a field that is not; after the
    merge a defined field resolves to its submitted answer, and to the
    empty string when it has none. *)
Theorem safe_get_answer_resolves :
  (∀ (pairs : gmap pykey (gmap pykey json)) id pair a,
     pairs !! KStr id = Some pair →
     pair !! KStr (lit "answer") = Some a →
     safe_get_answer pairs id = a)
  ∧ (∀ (pairs : gmap pykey (gmap pykey json)) id,
     pairs !! KStr id = None →
     safe_get_answer pairs id = JStr (lit "Not provided"))
  ∧ (∀ (titles answers : gmap pykey json) id title,
     titles !! KStr id = Some title →
     (∀ a, answers !! KStr id = Some a →
        safe_get_answer (question_answer_pairs_of titles answers) id = a)
     ∧ (answers !! KStr id = None →
        safe_get_answer (question_answer_pairs_of titles answers) id
        = JStr (lit ""))).
Proof.
  split; [|split].
  - intros pairs id pair a Hpair Ha. unfold safe_get_answer.
    rewrite Hpair. simpl. by rewrite Ha.
  - intros pairs id Hnone. unfold safe_get_answer. by rewrite Hnone.
  - intros titles answers id title Htitle.
    unfold safe_get_answer.
    rewrite lookup_question_answer_pairs, Htitle. simpl.
    rewrite pair_answer. simpl.
    split; [intros a Ha|intros Ha]; by rewrite Ha.
Qed.

(** ** Composition *)

Lemma Ok_inj {A} (a b : A) : Ok a = Ok b → a = b.
Proof. congruence. Qed.



(** ** Running the monad *)

Lemma bind_run {A B} (m : M A) (f : A → M B) tr :
  (m ≫= f) tr =
  match m tr with
  | (Ok a, tr') => f a tr'
  | (Raise e, tr') => (Raise e, tr')
  end.
Proof. reflexivity. Qed.

Lemma bind_lift_ok {A B} (r : result A) (f : A → M B) a tr :
  r = Ok a → (lift r ≫= f) tr = f a tr.
Proof. by intros ->. Qed.

Lemma bind_lift_raise {A B} (r : result A) (f : A → M B) e tr :
  r = Raise e → (lift r ≫= f) tr = (Raise e, tr).
Proof. by intros ->. Qed.

Lemma bind_ok {A B} (m : M A) (f : A → M B) a tr tr' :
  m tr = (Ok a, tr') → (m ≫= f) tr = f a tr'.
Proof. intros H. by rewrite bind_run, H. Qed.

Lemma bind_raise {A B} (m : M A) (f : A → M B) e tr tr' :
  m tr = (Raise e, tr') → (m ≫= f) tr = (Raise e, tr').
Proof. intros H. by rewrite bind_run, H. Qed.

Lemma alert_then_respond_run w message error (r : response) tr :
  (log_and_alert w message error;; mret r) tr
  = behind_alert w tr message error r.
Proof.
  unfold behind_alert. rewrite bind_run. unfold log_and_alert.
  rewrite bind_run. unfold emit, send_error_to_slack. cbv zeta.
  replace (filter is_alert (Logged ERROR message :: tr))
    with (filter is_alert tr)
    by (by rewrite filter_cons_False by (exact id)).
  by destruct (post_alert _ _ _) as [[]|e'].
Qed.

Lemma send_error_then_raise {A} w text e tr :
  ∃ e' tr', (send_error_to_slack w text;; raise (A:=A) e) tr = (Raise e', tr').
Proof.
  rewrite bind_run. unfold send_error_to_slack.
  destruct (post_alert _ _ _); eauto.
Qed.

(** ** Signature verification *)

Lemma verify_signature_total w signature payload tr :
  ∃ b tr', verify_signature w signature payload tr = (Ok b, tr').
Proof.
  unfold verify_signature, try_except. rewrite bind_run.
  unfold get_parameter, try_except, lift.
  destruct (ssm_get_parameter _ _) as [secret|e].
  - rewrite bind_run.
    destruct (match payload with JStr p => _ | _ => _ end); eauto.
  - rewrite bind_run. unfold send_error_to_slack.
    destruct (post_alert _ _ _); eauto.
Qed.

Lemma verify_signature_accepts w signature payload tr :
  signature_verifies w signature payload →
  verify_signature w signature payload tr = (Ok true, tr).
Proof.
  intros (secret & p & Hsecret & -> & Hmac).
  unfold verify_signature, try_except. rewrite bind_run.
  unfold get_parameter, try_except, lift. rewrite Hsecret, bind_run, Hmac.
  unfold mret, M_ret. by rewrite bool_decide_eq_true_2.
Qed.

Lemma verify_signature_rejects w signature payload tr :
  ¬ signature_verifies w signature payload →
  ∃ tr', verify_signature w signature payload tr = (Ok false, tr').
Proof.
  intros Hnot.
  unfold verify_signature, try_except. rewrite bind_run.
  unfold get_parameter, try_except, lift.
  destruct (ssm_get_parameter _ _) as [secret|e] eqn:Hsecret.
  - rewrite bind_run. destruct payload as [| | |p| |]; eauto.
    destruct (hmac_sha256_base64 w secret p) as [encoded|e] eqn:Hmac; eauto.
    unfold mret, M_ret. rewrite bool_decide_eq_false_2; eauto.
    intros ->. apply Hnot. by exists secret, p.
  - rewrite bind_run. unfold send_error_to_slack.
    destruct (post_alert _ _ _); eauto.
Qed.

(** ** The handler, stage by stage *)

Lemma split_once_at sep (name signature : pystr) :
  sep ∉ name → split_once sep (name ++ sep :: signature) = Some (name, signature).
Proof.
  induction name as [|c name IH]; intros Hnot; simpl.
  - by rewrite Z.eqb_refl.
  - apply not_elem_of_cons in Hnot as [Hne Hnot].
    destruct (Z.eqb_spec c sep) as [->|_]; [done|].
    by rewrite (IH Hnot).
Qed.

Lemma split_once_none sep s : sep ∉ s → split_once sep s = None.
Proof.
  induction s as [|c s IH]; [done|].
  intros [Hne Hnot]%not_elem_of_cons. cbn [split_once].
  destruct (Z.eqb_spec c sep) as [->|_]; [done|]. by rewrite (IH Hnot).
Qed.

Lemma truthy_with_separator (name signature : pystr) sep :
  py_truthy (JStr (name ++ sep :: signature)) = true.
Proof. simpl. by destruct name. Qed.

(** Every effect of an explicit list passes a boolean test. *)
Ltac solve_idle :=
  let e := fresh "e" in
  let He := fresh "He" in
  intros e He;
  repeat (apply elem_of_cons in He as [->|He]; [done|]);
  by apply elem_of_nil in He.

Lemma alerted_app mid new : alerted new → alerted (new ++ mid).
Proof. intros [text ?]. exists text. set_solver. Qed.

Lemma handler_enters g w event raw_body header tr :
  event_of event raw_body header →
  lambda_handler g w event tr =
  (if negb (py_truthy header) then
     log_and_alert w (lit "Webhook signature is missing. Permission denied.")
       None;;
     mret (respond 403 "Permission denied.")
   else
     '(sha_name, signature) ← lift (split_signature header);
     if negb (bool_decide (sha_name = lit "sha256")) then
       log_and_alert w (lit "Webhook sha is invalid. Permission denied.") None;;
       mret (respond 403 "Operation not supported.")
     else
       is_valid ← verify_signature w signature raw_body;
       if negb is_valid then
         log_and_alert w (lit "Webhook signature is invalid. Permission denied.")
           None;;
         mret (respond 403 "Invalid signature. Permission Denied.")
       else identify_user g w raw_body) tr.
Proof.
  intros (Hbody & headers & Hheaders & Hheader). unfold lambda_handler.
  rewrite (bind_lift_ok _ _ _ _ Hbody), (bind_lift_ok _ _ _ _ Hheaders).
  by rewrite (bind_lift_ok _ _ _ _ Hheader).
Qed.

Lemma handler_checks_signature g w event raw_body signature tr :
  event_of event raw_body (JStr (lit "sha256" ++ 61 :: signature)) →
  lambda_handler g w event tr =
  (is_valid ← verify_signature w signature raw_body;
   if negb is_valid then
     log_and_alert w (lit "Webhook signature is invalid. Permission denied.")
       None;;
     mret (respond 403 "Invalid signature. Permission Denied.")
   else identify_user g w raw_body) tr.
Proof.
  intros Hev.
  rewrite (handler_enters g w _ _ _ tr Hev), truthy_with_separator.
  cbn [negb]. unfold split_signature.
  rewrite (split_once_at 61 (lit "sha256") signature)
    by (apply (bool_decide_unpack _); by vm_compute).
  rewrite (bind_lift_ok _ _ (lit "sha256", signature)) by done.
  by rewrite bool_decide_eq_true_2.
Qed.

Lemma verify_signature_rejects_idle w signature payload tr :
  ¬ signature_verifies w signature payload →
  ∃ mid, idle mid
         ∧ verify_signature w signature payload tr = (Ok false, mid ++ tr).
Proof.
  intros Hnot.
  destruct (verify_signature_rejects w signature payload tr Hnot) as [tr' H].
  assert (∃ mid, tr' = mid ++ tr ∧ idle mid) as (mid & -> & Hmid); [|eauto].
  clear -H. unfold verify_signature, try_except in H. rewrite bind_run in H.
  unfold get_parameter, try_except, lift in H.
  destruct (ssm_get_parameter _ _).
  - rewrite bind_run in H.
    destruct (match payload with JStr p => _ | _ => _ end);
      unfold mret, M_ret, mbind, M_bind, emit in H; simplify_eq.
    + exists []. split; [done|]. solve_idle.
    + eexists [_]. split; [done|]. solve_idle.
  - rewrite bind_run in H. unfold send_error_to_slack in H.
    destruct (post_alert _ _ _);
      unfold mret, M_ret, mbind, M_bind, emit, raise, lift in H; simplify_eq;
      eexists [_; _]; (split; [done|]); solve_idle.
Qed.

Lemma handler_verified g w event raw_body tr :
  verified w event raw_body →
  lambda_handler g w event tr = identify_user g w raw_body tr.
Proof.
  intros (signature & Hev & Hsig).
  rewrite (handler_checks_signature g w _ _ _ tr Hev).
  by rewrite (bind_ok _ _ _ _ _ (verify_signature_accepts w _ _ tr Hsig)).
Qed.

Lemma identify_user_lookup g w raw_body form_response form_id token user_id tr :
  submission_of w raw_body form_response form_id token user_id →
  identify_user g w raw_body tr =
  (found ← attempt (get_cognito_user g w user_id);
   match found with
   | Raise UserNotFoundException =>
       log_and_alert w
         (lit "Failed to get user from cognito: User " ++ py_str w user_id
          ++ lit " not found.") None;;
       mret (respond 200 "User not found.")
   | Raise e =>
       log_and_alert w (lit "Failed to get user from cognito.") (Some e);;
       mret (respond 200 "User not found.")
   | Ok cognito_user =>
       attributes ← lift (py_getitem cognito_user (lit "UserAttributes"));
       first_name ← lift (get_cognito_user_attribute attributes
                            (lit "given_name"));
       last_name ← lift (get_cognito_user_attribute attributes
                           (lit "family_name"));
       emit (Logged INFO (lit "Updating user " ++ py_str w user_id
                          ++ lit " with typeformIds."));;
       updated ← attempt (update_user g w user_id form_id token);
       match updated with
       | Raise e =>
           log_and_alert w
             (lit "Unable to update user " ++ py_str w user_id
              ++ lit " with typeformIds.") (Some e);;
           mret (respond 200 "Unable to update user with typeformIds.")
       | Ok _ =>
           process_submission g w form_response user_id first_name last_name
       end
   end)
  (Logged INFO (lit "Getting user info for " ++ py_str w user_id) :: tr).
Proof.
  intros (body & hidden & Hbody & Hfr & Hform & Htoken & Hhidden & Huser).
  unfold identify_user.
  rewrite (bind_lift_ok _ _ _ _ Hbody), (bind_lift_ok _ _ _ _ Hfr).
  rewrite (bind_lift_ok _ _ _ _ Hform), (bind_lift_ok _ _ _ _ Htoken).
  by rewrite (bind_lift_ok _ _ _ _ Hhidden), (bind_lift_ok _ _ _ _ Huser).
Qed.

Lemma identify_user_update g w raw_body form_response form_id token user_id
    first_name last_name tr :
  submission_of w raw_body form_response form_id token user_id →
  identified g w user_id first_name last_name →
  identify_user g w raw_body tr =
  (updated ← attempt (update_user g w user_id form_id token);
   match updated with
   | Raise e =>
       log_and_alert w
         (lit "Unable to update user " ++ py_str w user_id
          ++ lit " with typeformIds.") (Some e);;
       mret (respond 200 "Unable to update user with typeformIds.")
   | Ok _ => process_submission g w form_response user_id first_name last_name
   end)
  ([ Logged INFO (lit "Updating user " ++ py_str w user_id
                  ++ lit " with typeformIds.");
     Logged INFO (lit "Getting user info for " ++ py_str w user_id) ] ++ tr).
Proof.
  intros Hsub (cognito_user & attributes & Hget & Hattrs & Hfirst & Hlast).
  rewrite (identify_user_lookup g w _ _ _ _ _ tr Hsub).
  rewrite bind_run. unfold attempt at 1, get_cognito_user, lift. rewrite Hget.
  rewrite (bind_lift_ok _ _ _ _ Hattrs), (bind_lift_ok _ _ _ _ Hfirst).
  by rewrite (bind_lift_ok _ _ _ _ Hlast).
Qed.

Lemma handler_accepted g w event form_response user_id first_name last_name tr :
  accepted g w event form_response user_id first_name last_name →
  ∃ mid, unsignalled mid
    ∧ lambda_handler g w event tr
      = process_submission g w form_response user_id first_name last_name
          (mid ++ tr).
Proof.
  intros (raw_body & form_id & token & Hver & Hsub & Hid & Hupdate).
  rewrite (handler_verified g w _ _ tr Hver).
  rewrite (identify_user_update g w _ _ _ _ _ _ _ tr Hsub Hid).
  rewrite bind_run. unfold attempt, update_user. rewrite bind_run.
  unfold lift. rewrite Hupdate. unfold emit.
  eexists (_ :: _). split; [|done].
  intros e He. repeat (apply elem_of_cons in He as [->|He]; [done|]).
  by apply elem_of_nil in He.
Qed.

(** ** Delivery *)

Lemma get_parameter_ok w name value tr :
  ssm_get_parameter w name = Ok value → get_parameter w name tr = (Ok value, tr).
Proof. intros H. unfold get_parameter, try_except, lift. by rewrite H. Qed.

Lemma get_parameter_fails w name e tr :
  ssm_get_parameter w name = Raise e →
  ∃ e' tr', get_parameter w name tr = (Raise e', tr').
Proof.
  intros H. unfold get_parameter, try_except, lift. rewrite H.
  apply send_error_then_raise.
Qed.

Lemma send_to_slack_ok w prompt tr :
  notified w prompt →
  send_to_slack w prompt tr
  = (Ok (), PromptPosted (lit "*Prompt*:" ++ [10] ++ lit "> " ++ prompt) :: tr).
Proof.
  intros (url & Hurl & Hpost). unfold send_to_slack, try_except.
  rewrite (bind_ok _ _ _ _ _ (get_parameter_ok w _ _ tr Hurl)).
  cbv zeta. rewrite bind_run. unfold lift. by rewrite Hpost.
Qed.

Lemma send_to_slack_fails w prompt :
  notification_fails w prompt → raises (send_to_slack w prompt).
Proof.
  intros Hfail tr. unfold send_to_slack, try_except.
  destruct Hfail as [[e He]|(url & e & Hurl & Hpost)].
  - destruct (get_parameter_fails w _ e tr He) as (e' & tr' & H).
    rewrite (bind_raise _ _ _ _ _ H). apply send_error_then_raise.
  - rewrite (bind_ok _ _ _ _ _ (get_parameter_ok w _ _ tr Hurl)).
    cbv zeta. rewrite bind_run. unfold lift. rewrite Hpost.
    apply send_error_then_raise.
Qed.

Lemma save_to_db_ok g w user_id prompt tr :
  stored g w user_id prompt →
  ∃ eff, is_signal eff = false
         ∧ save_to_db g w user_id prompt tr = (Ok (), eff :: tr).
Proof.
  intros [[n Hq]|[Hq Hput]]; unfold save_to_db;
    rewrite (bind_lift_ok _ _ _ _ Hq); simpl.
  - by eexists (Logged _ _).
  - rewrite bind_run. unfold lift. rewrite Hput. by eexists (StorySaved _ _).
Qed.

Lemma save_to_db_raises g w user_id prompt e tr :
  dynamodb_query w (STORY_TABLE g) user_id = Raise e
  ∨ (dynamodb_query w (STORY_TABLE g) user_id = Ok 0%nat
     ∧ dynamodb_put_item w (STORY_TABLE g) user_id prompt = Raise e) →
  save_to_db g w user_id prompt tr = (Raise e, tr).
Proof.
  intros [Hq|[Hq Hput]]; unfold save_to_db.
  - by rewrite (bind_lift_raise _ _ _ _ Hq).
  - rewrite (bind_lift_ok _ _ _ _ Hq). cbn [Nat.eqb negb].
    by rewrite (bind_lift_raise _ _ _ _ Hput).
Qed.

Lemma deliver_notification_fails g w user_id prompt :
  notification_fails w prompt → raises (deliver g w user_id prompt).
Proof.
  intros Hfail tr. unfold deliver.
  destruct (send_to_slack_fails w prompt Hfail tr) as (e & tr' & H).
  rewrite (bind_raise _ _ _ _ _ H). eauto.
Qed.

Lemma deliver_succeeds g w user_id prompt tr :
  notified w prompt →
  stored g w user_id prompt →
  sqs_send_message w (QUEUE_URL g) user_id = Ok () →
  ∃ new, answers (deliver g w user_id prompt) tr
           {| statusCode := 200; body := None |} new
         ∧ SignalSent user_id ∈ new.
Proof.
  intros Hnote Hstored Hsqs. unfold answers, deliver.
  rewrite (bind_ok _ _ _ _ _ (send_to_slack_ok w prompt tr Hnote)).
  rewrite bind_run. unfold attempt at 1.
  match goal with
  | |- context [save_to_db g w user_id prompt ?t] =>
      destruct (save_to_db_ok g w user_id prompt t Hstored) as (eff & Heff & ->)
  end.
  rewrite bind_run. unfold attempt. rewrite bind_run. unfold lift.
  rewrite Hsqs. unfold emit.
  eexists [_; _; _]. split; [done|]. set_solver.
Qed.

(** ** Extraction and composition inside the handler *)

Lemma get_question_id_to_title_ok w data titles tr :
  question_id_to_title_of data = Ok titles →
  get_question_id_to_title w data tr = (Ok titles, tr).
Proof.
  intros H. unfold get_question_id_to_title, try_except, lift. by rewrite H.
Qed.

Lemma process_submission_delivers g w form_response user_id first_name
    last_name prompt tr :
  returns (build_prompt w form_response first_name last_name) prompt →
  process_submission g w form_response user_id first_name last_name tr
  = deliver g w user_id prompt tr.
Proof. intros H. unfold process_submission. by rewrite (bind_ok _ _ _ _ _ (H tr)). Qed.

Lemma process_submission_raises g w form_response user_id first_name last_name :
  raises (build_prompt w form_response first_name last_name) →
  raises (process_submission g w form_response user_id first_name last_name).
Proof.
  intros H tr. destruct (H tr) as (e & tr' & Hrun).
  unfold process_submission. rewrite (bind_raise _ _ _ _ _ Hrun). eauto.
Qed.

(** A multiple choice with no labels and no other field, a missing tag
    value, an unhashable field id: whatever makes the loop over the
    answers raise stops the pipeline. *)
Lemma build_prompt_extraction_fails w form_response first_name last_name
    form_definition form_answers titles e :
  py_getitem form_response (lit "definition") = Ok form_definition →
  py_getitem form_response (lit "answers") = Ok form_answers →
  question_id_to_title_of form_definition = Ok titles →
  question_id_to_answer_of w form_answers = Raise e →
  raises (build_prompt w form_response first_name last_name).
Proof.
  intros Hdef Hans Htitles Hfail tr. unfold build_prompt.
  rewrite (bind_lift_ok _ _ _ _ Hdef), (bind_lift_ok _ _ _ _ Hans).
  rewrite (bind_ok _ _ _ _ _ (get_question_id_to_title_ok w _ _ tr Htitles)).
  destruct (extraction_failure_is_raised w form_answers e tr Hfail)
    as (e' & tr' & H).
  rewrite (bind_raise _ _ _ _ _ H). eauto.
Qed.

Lemma calculate_age_fails w birthdate_str :
  (∀ s, birthdate_str = JStr s → ∃ e, strptime_ymd w s = Raise e) →
  raises (calculate_age w birthdate_str).
Proof.
  intros Hbad tr. unfold calculate_age, try_except. rewrite bind_run.
  unfold lift.
  destruct birthdate_str as [| | |s| |]; try apply send_error_then_raise.
  destruct (Hbad s eq_refl) as [e ->]. apply send_error_then_raise.
Qed.

Lemma build_prompt_birthdate_fails w form_response first_name last_name
    form_definition form_answers titles answers :
  py_getitem form_response (lit "definition") = Ok form_definition →
  py_getitem form_response (lit "answers") = Ok form_answers →
  question_id_to_title_of form_definition = Ok titles →
  question_id_to_answer_of w form_answers = Ok answers →
  (∀ s, safe_get_answer (question_answer_pairs_of titles answers)
          (lit "VYsICm8rAEYx") = JStr s →
        ∃ e, strptime_ymd w s = Raise e) →
  raises (build_prompt w form_response first_name last_name).
Proof.
  intros Hdef Hans Htitles Hanswers Hbad tr. unfold build_prompt.
  rewrite (bind_lift_ok _ _ _ _ Hdef), (bind_lift_ok _ _ _ _ Hans).
  rewrite (bind_ok _ _ _ _ _ (get_question_id_to_title_ok w _ _ tr Htitles)).
  rewrite (bind_ok _ _ _ _ _ (map_question_id_to_answer_ok w _ _ tr Hanswers)).
  cbv zeta.
  destruct (calculate_age_fails w _ Hbad tr) as (e & tr' & H).
  rewrite (bind_raise _ _ _ _ _ H). eauto.
Qed.

(** ** The handler as a whole *)

Lemma handler_propagates_composition g w event form_response user_id
    first_name last_name :
  accepted g w event form_response user_id first_name last_name →
  raises (build_prompt w form_response first_name last_name) →
  raises (lambda_handler g w event).
Proof.
  intros Hacc Hfail tr.
  destruct (handler_accepted g w _ _ _ _ _ tr Hacc) as (mid & Hmid & ->).
  by apply process_submission_raises.
Qed.

Lemma handler_propagates_notification g w event form_response user_id
    first_name last_name prompt :
  accepted g w event form_response user_id first_name last_name →
  returns (build_prompt w form_response first_name last_name) prompt →
  notification_fails w prompt →
  raises (lambda_handler g w event).
Proof.
  intros Hacc Hprompt Hfail tr.
  destruct (handler_accepted g w _ _ _ _ _ tr Hacc) as (mid & Hmid & ->).
  rewrite (process_submission_delivers g w _ _ _ _ prompt) by done.
  by apply deliver_notification_fails.
Qed.

(** Claim C7.  Every answer that the claim lists for a failure comes
    behind an alert: the handler logs, posts to the alert webhook, and
    only then returns.  The outcome of each is by cases on that post.
    When the post returns, a missing signature header, a hash name other
    than sha256 and a signature that does not verify are answered with
    403; a failed identity lookup, a failed identity update and a failed
    persistence write with 200 and a detail; a failed queue publish,
    logged and alerted, with 200.  When the post raises, as it does on
    every call with the placeholder of line 503, each of these
    invocations ends in the error of the post instead of the answer.  A
    signature header that cannot be split at an equals sign ends in
    ValueError, and a truthy one that is not a string in AttributeError,
    before any log entry or alert.  Whatever the alert
    webhook does, a failure of extraction or composition and a failure
    of the notification end the invocation in an unhandled error. *)
Theorem handler_answers_behind_alerts g w :
  (∀ event raw_body header tr,
     event_of event raw_body header →
     py_truthy header = false →
     lambda_handler g w event tr
     = behind_alert w tr
         (lit "Webhook signature is missing. Permission denied.") None
         (respond 403 "Permission denied."))
  ∧ (∀ event raw_body name signature tr,
     event_of event raw_body (JStr (name ++ 61 :: signature)) →
     61 ∉ name →
     name ≠ lit "sha256" →
     lambda_handler g w event tr
     = behind_alert w tr
         (lit "Webhook sha is invalid. Permission denied.") None
         (respond 403 "Operation not supported."))
  ∧ (∀ event raw_body signature tr,
     event_of event raw_body (JStr (lit "sha256" ++ 61 :: signature)) →
     ¬ signature_verifies w signature raw_body →
     ∃ mid, idle mid
       ∧ lambda_handler g w event tr
         = behind_alert w (mid ++ tr)
             (lit "Webhook signature is invalid. Permission denied.") None
             (respond 403 "Invalid signature. Permission Denied."))
  ∧ (∀ event raw_body form_response form_id token user_id tr,
     verified w event raw_body →
     submission_of w raw_body form_response form_id token user_id →
     admin_get_user w (USER_POOL_ID g) user_id = Raise UserNotFoundException →
     lambda_handler g w event tr
     = behind_alert w
         (Logged INFO (lit "Getting user info for " ++ py_str w user_id) :: tr)
         (lit "Failed to get user from cognito: User " ++ py_str w user_id
          ++ lit " not found.") None
         (respond 200 "User not found."))
  ∧ (∀ event raw_body form_response form_id token user_id e tr,
     verified w event raw_body →
     submission_of w raw_body form_response form_id token user_id →
     admin_get_user w (USER_POOL_ID g) user_id = Raise e →
     e ≠ UserNotFoundException →
     lambda_handler g w event tr
     = behind_alert w
         (Logged INFO (lit "Getting user info for " ++ py_str w user_id) :: tr)
         (lit "Failed to get user from cognito.") (Some e)
         (respond 200 "User not found."))
  ∧ (∀ event raw_body form_response form_id token user_id first_name
       last_name e tr,
     verified w event raw_body →
     submission_of w raw_body form_response form_id token user_id →
     identified g w user_id first_name last_name →
     admin_update_user_attributes w (USER_POOL_ID g) user_id form_id token
     = Raise e →
     lambda_handler g w event tr
     = behind_alert w
         ([ Logged INFO (lit "Updating user " ++ py_str w user_id
                         ++ lit " with typeformIds.");
            Logged INFO (lit "Getting user info for " ++ py_str w user_id) ]
          ++ tr)
         (lit "Unable to update user " ++ py_str w user_id
          ++ lit " with typeformIds.") (Some e)
         (respond 200 "Unable to update user with typeformIds."))
  ∧ (∀ event form_response user_id first_name last_name prompt e tr,
     accepted g w event form_response user_id first_name last_name →
     returns (build_prompt w form_response first_name last_name) prompt →
     notified w prompt →
     dynamodb_query w (STORY_TABLE g) user_id = Raise e
     ∨ (dynamodb_query w (STORY_TABLE g) user_id = Ok 0%nat
        ∧ dynamodb_put_item w (STORY_TABLE g) user_id prompt = Raise e) →
     ∃ mid, unsignalled mid
       ∧ lambda_handler g w event tr
         = behind_alert w (mid ++ tr)
             (lit "Unable to save user story to db") (Some e)
             (respond 200 "Unable to save user story to db."))
  ∧ (∀ event form_response user_id first_name last_name prompt e tr,
     accepted g w event form_response user_id first_name last_name →
     returns (build_prompt w form_response first_name last_name) prompt →
     notified w prompt →
     stored g w user_id prompt →
     sqs_send_message w (QUEUE_URL g) user_id = Raise e →
     ∃ mid, unsignalled mid
       ∧ lambda_handler g w event tr
         = behind_alert w (mid ++ tr)
             (lit "Unable to send initiate generate workout flow for user "
              ++ py_str w user_id) (Some e)
             {| statusCode := 200; body := None |})
  ∧ (∀ tr message error r,
     (alerts_delivered w → fst (behind_alert w tr message error r) = Ok r)
     ∧ (alerts_refused w →
        ∃ e, fst (behind_alert w tr message error r) = Raise e))
  ∧ (∀ event raw_body s tr,
     event_of event raw_body (JStr s) →
     s ≠ [] →
     61 ∉ s →
     lambda_handler g w event tr = (Raise ValueError, tr))
  ∧ (∀ event raw_body header tr,
     event_of event raw_body header →
     py_truthy header = true →
     (∀ s, header ≠ JStr s) →
     lambda_handler g w event tr = (Raise AttributeError, tr))
  ∧ (∀ event form_response user_id first_name last_name,
     accepted g w event form_response user_id first_name last_name →
     raises (build_prompt w form_response first_name last_name) →
     raises (lambda_handler g w event))
  ∧ (∀ event form_response user_id first_name last_name prompt,
     accepted g w event form_response user_id first_name last_name →
     returns (build_prompt w form_response first_name last_name) prompt →
     notification_fails w prompt →
     raises (lambda_handler g w event)).
Proof.
  repeat apply conj.
  - intros event raw_body header tr Hev Hfalse.
    rewrite (handler_enters g w _ _ _ tr Hev), Hfalse.
    apply alert_then_respond_run.
  - intros event raw_body name signature tr Hev Hsep Hname.
    rewrite (handler_enters g w _ _ _ tr Hev), truthy_with_separator.
    cbn [negb]. unfold split_signature. rewrite (split_once_at _ _ _ Hsep).
    rewrite (bind_lift_ok _ _ (name, signature)) by done.
    rewrite bool_decide_eq_false_2 by done. apply alert_then_respond_run.
  - intros event raw_body signature tr Hev Hnot.
    rewrite (handler_checks_signature g w _ _ _ tr Hev).
    destruct (verify_signature_rejects_idle w signature raw_body tr Hnot)
      as (mid & Hmid & H).
    exists mid. split; [done|]. rewrite (bind_ok _ _ _ _ _ H). cbn [negb].
    apply alert_then_respond_run.
  - intros event raw_body form_response form_id token user_id tr Hver Hsub Hget.
    rewrite (handler_verified g w _ _ tr Hver).
    rewrite (identify_user_lookup g w _ _ _ _ _ tr Hsub).
    rewrite bind_run. unfold attempt, get_cognito_user, lift. rewrite Hget.
    apply alert_then_respond_run.
  - intros event raw_body form_response form_id token user_id e tr Hver Hsub
      Hget Hne.
    rewrite (handler_verified g w _ _ tr Hver).
    rewrite (identify_user_lookup g w _ _ _ _ _ tr Hsub).
    rewrite bind_run. unfold attempt, get_cognito_user, lift. rewrite Hget.
    destruct e; try apply alert_then_respond_run. by destruct Hne.
  - intros event raw_body form_response form_id token user_id first_name
      last_name e tr Hver Hsub Hid Hupdate.
    rewrite (handler_verified g w _ _ tr Hver).
    rewrite (identify_user_update g w _ _ _ _ _ _ _ tr Hsub Hid).
    rewrite bind_run. unfold attempt, update_user. rewrite bind_run.
    unfold lift. rewrite Hupdate. apply alert_then_respond_run.
  - intros event form_response user_id first_name last_name prompt e tr
      Hacc Hprompt Hnote Hfail.
    destruct (handler_accepted g w _ _ _ _ _ tr Hacc) as (mid & Hmid & ->).
    rewrite (process_submission_delivers g w _ _ _ _ prompt) by done.
    unfold deliver.
    rewrite (bind_ok _ _ _ _ _ (send_to_slack_ok w prompt _ Hnote)).
    rewrite bind_run. unfold attempt.
    rewrite (save_to_db_raises g w user_id prompt e _ Hfail).
    exists (PromptPosted (lit "*Prompt*:" ++ [10] ++ lit "> " ++ prompt) :: mid).
    split.
    + intros x [->|Hx]%elem_of_cons; [done|by apply Hmid].
    + apply alert_then_respond_run.
  - intros event form_response user_id first_name last_name prompt e tr
      Hacc Hprompt Hnote Hstored Hsqs.
    destruct (handler_accepted g w _ _ _ _ _ tr Hacc) as (mid & Hmid & ->).
    rewrite (process_submission_delivers g w _ _ _ _ prompt) by done.
    unfold deliver.
    rewrite (bind_ok _ _ _ _ _ (send_to_slack_ok w prompt _ Hnote)).
    rewrite bind_run. unfold attempt at 1.
    match goal with
    | |- context [save_to_db g w user_id prompt ?t] =>
        destruct (save_to_db_ok g w user_id prompt t Hstored) as (eff & Heff & ->)
    end.
    rewrite bind_run. unfold attempt. rewrite bind_run. unfold lift.
    rewrite Hsqs.
    exists (eff :: PromptPosted (lit "*Prompt*:" ++ [10] ++ lit "> " ++ prompt)
            :: mid).
    split.
    + intros x [->|[->|Hx]%elem_of_cons]%elem_of_cons; [done|done|by apply Hmid].
    + apply alert_then_respond_run.
  - intros tr message error r. unfold behind_alert. cbn [fst]. split.
    + intros Hw. by rewrite Hw.
    + intros Hw.
      destruct (Hw (length (filter is_alert tr))
                  (message ++ lit ". Error: "
                   ++ from_option (str_exn w) (lit "None") error)) as [e ->].
      by exists e.
  - intros event raw_body s tr Hev Hne Hnot.
    rewrite (handler_enters g w _ _ _ tr Hev).
    replace (py_truthy (JStr s)) with true by (by destruct s).
    cbn [negb]. unfold split_signature. by rewrite (split_once_none _ _ Hnot).
  - intros event raw_body header tr Hev Htruthy Hnostr.
    rewrite (handler_enters g w _ _ _ tr Hev), Htruthy. cbn [negb].
    destruct header as [| | |s| |]; try done. by destruct (Hnostr s).
  - apply handler_propagates_composition.
  - apply handler_propagates_notification.
Qed.

(** ** The ignore list *)

Lemma record_title_keeps d field titles key :
  record_title d field = Ok titles → is_Some (d !! key) → is_Some (titles !! key).
Proof.
  unfold record_title, dict_set.
  destruct (py_getitem field (lit "title")) as [title|]; [|done].
  cbn [mbind result_bind].
  destruct (py_getitem field (lit "id")) as [id|]; [|done].
  cbn [mbind result_bind].
  destruct (to_key id) as [k|]; [|done]. intros <-%Ok_inj Hd.
  destruct (decide (k = key)) as [->|Hne].
  - rewrite lookup_insert_eq. eauto.
  - by rewrite lookup_insert_ne.
Qed.

Lemma fold_record_title_keeps fields d titles key :
  fold_result record_title d fields = Ok titles →
  is_Some (d !! key) → is_Some (titles !! key).
Proof.
  revert d. induction fields as [|field fields IH]; intros d; simpl.
  - by intros <-%Ok_inj.
  - destruct (record_title d field) as [d'|] eqn:Hstep; [|done].
    cbn [mbind result_bind]. intros Hrest Hd.
    eapply IH; [exact Hrest|]. by eapply record_title_keeps.
Qed.

Lemma fold_record_title_defines fields d titles field :
  fold_result record_title d fields = Ok titles →
  field ∈ fields →
  ∃ id key, py_getitem field (lit "id") = Ok id
            ∧ to_key id = Some key
            ∧ is_Some (titles !! key).
Proof.
  revert d. induction fields as [|f fields IH]; intros d; simpl.
  - intros _ []%elem_of_nil.
  - destruct (record_title d f) as [d'|] eqn:Hstep; [|done].
    cbn [mbind result_bind]. intros Hrest [->|Hin]%elem_of_cons.
    + revert Hstep. unfold record_title, dict_set.
      destruct (py_getitem f (lit "title")) as [title|]; [|done].
      cbn [mbind result_bind].
      destruct (py_getitem f (lit "id")) as [id|]; [|done].
      cbn [mbind result_bind].
      destruct (to_key id) as [k|] eqn:Hk; [|done]. intros <-%Ok_inj.
      exists id, k. split; [done|]. split; [done|].
      eapply fold_record_title_keeps; [exact Hrest|].
      rewrite lookup_insert_eq. eauto.
    + by eapply IH.
Qed.

(** Claim C9.  The handler does not depend on the list of ignored field
    ids; the pairs built from a form definition have an entry for every
    defined field, and so for a defined field whose id is on that
    list. *)
Theorem ignore_field_ids_unused :
  (∀ g w event ids,
     lambda_handler (with_ignore_field_ids g ids) w event
     = lambda_handler g w event)
  ∧ (∀ data fields titles answers field,
     py_getitem data (lit "fields") = Ok (JArr fields) →
     question_id_to_title_of data = Ok titles →
     field ∈ fields →
     ∃ id key, py_getitem field (lit "id") = Ok id
               ∧ to_key id = Some key
               ∧ is_Some (question_answer_pairs_of titles answers !! key))
  ∧ (∀ queue_url story_table user_pool_id id data fields titles answers title,
     id ∈ ignore_field_ids (module_globals queue_url story_table user_pool_id) →
     py_getitem data (lit "fields") = Ok (JArr fields) →
     question_id_to_title_of data = Ok titles →
     JObj [(lit "id", JStr id); (lit "title", title)] ∈ fields →
     is_Some (question_answer_pairs_of titles answers !! KStr id)).
Proof.
  assert (Hdefined : ∀ data fields titles answers field,
     py_getitem data (lit "fields") = Ok (JArr fields) →
     question_id_to_title_of data = Ok titles →
     field ∈ fields →
     ∃ id key, py_getitem field (lit "id") = Ok id
               ∧ to_key id = Some key
               ∧ is_Some (question_answer_pairs_of titles answers !! key)).
  { intros data fields titles answers field Hfields Htitles Hin.
    unfold question_id_to_title_of in Htitles. rewrite Hfields in Htitles.
    cbn [mbind result_bind py_iter] in Htitles.
    destruct (fold_record_title_defines _ _ _ _ Htitles Hin)
      as (id & key & Hid & Hkey & [title Htitle]).
    exists id, key. split; [done|]. split; [done|].
    rewrite lookup_question_answer_pairs, Htitle. simpl. eauto. }
  split; [reflexivity|]. split; [exact Hdefined|].
  intros queue_url story_table user_pool_id id data fields titles answers title
    _ Hfields Htitles Hin.
  destruct (Hdefined _ _ _ answers _ Hfields Htitles Hin)
    as (id' & key & Hid & Hkey & Hsome).
  assert (id' = JStr id) as -> by (by apply Ok_inj).
  simpl in Hkey. by simplify_eq.
Qed.

(** ** A multiple choice without labels and without the other field *)

(** Claim C10.  A multiple-choice answer with an empty list of labels
    and no other key makes the extraction raise (a KeyError for the
    key), and the handler that has accepted such a submission ends in an
    unhandled error. *)
Theorem multi_choice_without_other_raises w :
  (∀ answer choices labels,
     shape_of answer = Some (lit "choices") →
     py_getitem answer (lit "choices") = Ok choices →
     py_getitem choices (lit "labels") = Ok labels →
     py_truthy labels = false →
     py_has choices (lit "other") = false →
     answer_value_of w answer = Raise (KeyError (lit "other")))
  ∧ question_id_to_answer_of w (JArr [Sample.multi_choice_without_other])
    = Raise (KeyError (lit "other"))
  ∧ (∀ answers d,
     question_id_to_answer_of w (JArr answers) = Ok d →
     raises (map_question_id_to_answer w
               (JArr (answers ++ [Sample.multi_choice_without_other]))))
  ∧ (∀ g event first_name last_name answers d,
     accepted g w event
       (Sample.form_response (answers ++ [Sample.multi_choice_without_other]))
       (JStr (lit "user-1")) first_name last_name →
     question_id_to_answer_of w (JArr answers) = Ok d →
     raises (lambda_handler g w event)).
Proof.
  assert (Hlast : ∀ answers d,
    question_id_to_answer_of w (JArr answers) = Ok d →
    question_id_to_answer_of w
      (JArr (answers ++ [Sample.multi_choice_without_other]))
    = Raise (KeyError (lit "other"))).
  { intros answers d Hd. by rewrite question_id_to_answer_snoc, Hd. }
  split; [|split; [done|split]].
  - intros answer choices labels Hshape Hchoices Hlabels Hfalsy Hother.
    rewrite (shape_choices_value w _ _ Hshape Hchoices), documented_choices.
    rewrite Hlabels. cbn [mbind result_bind]. rewrite Hfalsy.
    by apply (py_has_false_getitem _ _ _ Hlabels).
  - intros answers d Hd tr.
    eapply extraction_failure_is_raised, Hlast, Hd.
  - intros g event first_name last_name answers d Hacc Hd.
    eapply handler_propagates_composition; [exact Hacc|].
    eapply build_prompt_extraction_fails; [done|done|done|].
    eapply Hlast, Hd.
Qed.

(** ** The properties at sample inputs *)

Lemma extraction_normalises_by_shape_witness :
  map_question_id_to_answer Sample.quiet (JArr [Sample.text_answer]) []
  = (Ok (<[KStr (lit "Ie0vINxRmbiE") := JStr (lit "180 cm")]> ∅), []).
Proof.
  exact (proj1 (extraction_normalises_by_shape Sample.quiet [] ∅
                  Sample.text_answer
                  (JObj [(lit "id", JStr (lit "Ie0vINxRmbiE"))])
                  (JStr (lit "Ie0vINxRmbiE")) (KStr (lit "Ie0vINxRmbiE")) []
                  eq_refl eq_refl eq_refl eq_refl)
               (lit "text") (JStr (lit "180 cm")) (JStr (lit "180 cm"))
               eq_refl eq_refl eq_refl).
Defined.

Lemma multi_choice_join_witness :
  answer_value_of Sample.quiet Sample.multi_choice_AB
  = Ok (JStr (py_join (lit ", ") [lit "A"; lit "B"])).
Proof.
  refine (proj1 (proj1 (multi_choice_join Sample.quiet)
                   Sample.multi_choice_AB
                   (JObj [(lit "labels", JArr [JStr (lit "A"); JStr (lit "B")])])
                   eq_refl eq_refl)
            [lit "A"; lit "B"] _ eq_refl).
  discriminate.
Defined.

Lemma calculate_age_by_birthday_witness :
  calculate_age Sample.quiet (JStr (lit "1990-06-15")) [] = (Ok 33, []).
Proof.
  apply (proj1 (proj1 (calculate_age_by_birthday Sample.quiet)
                  (lit "1990-06-15")
                  {| year := 1990; month := 6; day := 15 |} [] eq_refl)).
  right. split; [reflexivity|]. simpl. lia.
Defined.

Lemma safe_get_answer_resolves_witness :
  safe_get_answer ∅ (lit "unknownId") = JStr (lit "Not provided").
Proof.
  apply (proj1 (proj2 safe_get_answer_resolves) ∅ (lit "unknownId")).
  reflexivity.
Defined.


Lemma ignore_field_ids_unused_witness :
  is_Some (question_answer_pairs_of
             (<[KStr (lit "9CnfCXmUgSXo") := JStr (lit "Equipment")]>
                (<[KStr (lit "hyZIUMruIaXZ") := JStr (lit "Welcome")]>
                   (<[KStr (lit "VYsICm8rAEYx") := JStr (lit "Birthdate")]> ∅)))
             ∅ !! KStr (lit "hyZIUMruIaXZ")).
Proof.
  refine (proj2 (proj2 ignore_field_ids_unused) (lit "q") (lit "t") (lit "p")
            (lit "hyZIUMruIaXZ") Sample.form_definition _ _ ∅
            (JStr (lit "Welcome")) _ eq_refl eq_refl _).
  - apply list_elem_of_In. left. reflexivity.
  - apply list_elem_of_In. right. left. reflexivity.
Defined.

Lemma multi_choice_without_other_raises_witness :
  answer_value_of Sample.quiet Sample.multi_choice_without_other
  = Raise (KeyError (lit "other")).
Proof.
  exact (proj1 (multi_choice_without_other_raises Sample.quiet)
           Sample.multi_choice_without_other
           (JObj [(lit "labels", JArr [])]) (JArr [])
           eq_refl eq_refl eq_refl eq_refl eq_refl).
Defined.

Lemma sample_accepted w answers :
  json_loads w = json_loads (Sample.served answers) →
  hmac_sha256_base64 w = hmac_sha256_base64 (Sample.served answers) →
  ssm_get_parameter w = ssm_get_parameter (Sample.served answers) →
  admin_get_user w = admin_get_user (Sample.served answers) →
  admin_update_user_attributes w
  = admin_update_user_attributes (Sample.served answers) →
  accepted Sample.deployed w Sample.signed_event (Sample.form_response answers)
    (JStr (lit "user-1")) (JStr (lit "Ana")) (JStr (lit "Silva")).
Proof.
  intros Hloads Hmac Hssm Hget Hupdate.
  exists (JStr (lit "payload")), (JStr (lit "form-1")), (JStr (lit "token-1")).
  split; [|split; [|split]].
  - exists (lit "secretpayload"). split.
    + split; [reflexivity|]. eexists. split; reflexivity.
    + exists (lit "secret"), (lit "payload").
      rewrite Hssm, Hmac. repeat split; reflexivity.
  - unfold submission_of, loads. rewrite Hloads.
    eexists _, _. repeat split; reflexivity.
  - unfold identified. rewrite Hget.
    eexists _, _. repeat split; reflexivity.
  - rewrite Hupdate. reflexivity.
Defined.

Lemma handler_answers_behind_alerts_witness :
  lambda_handler Sample.deployed (Sample.alerts_down (Sample.served []))
    Sample.unsigned_event []
  = (Raise (ExternalError 0),
     [ AlertPosted (lit "Webhook signature is missing. Permission denied."
                    ++ lit ". Error: " ++ lit "None");
       Logged ERROR (lit "Webhook signature is missing. Permission denied.") ]).
Proof.
  refine (proj1 (handler_answers_behind_alerts Sample.deployed
                   (Sample.alerts_down (Sample.served [])))
            Sample.unsigned_event (JStr (lit "payload")) JNull [] _ eq_refl).
  split; [reflexivity|]. eexists. split; reflexivity.
Defined.

(** ** Runs of the model *)

Example untagged_answer_extracted w :
  (λ d, d !! KStr (lit "zp6cr5EGryS5"))
    <$> (match question_id_to_answer_of w (JArr [Sample.untagged_answer]) with
         | Ok d => Some d
         | Raise _ => None
         end)
  = Some (Some (JStr (lit "Answer type not supported"))).
Proof. reflexivity. Qed.

Example age_on_the_birthday tr :
  calculate_age
    (Sample.on_date Sample.quiet {| year := 2024; month := 6; day := 15 |})
    (JStr (lit "1990-06-15")) tr
  = (Ok 34, tr).
Proof. reflexivity. Qed.

Example malformed_birthdate_raises :
  strptime_ymd Sample.quiet (lit "Not provided") = Raise ValueError
  ∧ strptime_ymd Sample.quiet (lit "1990-02-30") = Raise ValueError
  ∧ strptime_ymd Sample.quiet (lit "1990-6-5")
    = Ok {| year := 1990; month := 6; day := 5 |}.
Proof. repeat split; reflexivity. Qed.

Example accepted_submission_processed :
  let run :=
    lambda_handler Sample.deployed
      (Sample.served [Sample.birthdate_answer; Sample.multi_choice_AB])
      Sample.signed_event [] in
  fst run = Ok {| statusCode := 200; body := None |}
  ∧ List.map is_processing (snd run)
    = [true; true; true; true; false; false].
Proof. split; vm_compute; reflexivity. Qed.

(** * Further properties *)

(** ** The character class of the emoji removal *)

(** Property X16.  The character class of the emoji removal is U+200D,
    U+231A, U+23CF, U+23E9 and every code point from U+24C2 up to
    U+10FFFF: the overlapping ranges leave no gap above U+24C2. *)
Theorem emoji_class_extent c :
  in_emoji_class c = true ↔
  c = 0x200D ∨ c = 0x231A ∨ c = 0x23CF ∨ c = 0x23E9
  ∨ (0x24C2 ≤ c ∧ c ≤ 0x10FFFF).
Proof.
  unfold in_emoji_class, emoji_ranges, between. cbn [existsb fst snd].
  rewrite !orb_true_iff, !andb_true_iff, !Z.leb_le. lia.
Qed.

Lemma remove_emojis_app a b :
  remove_emojis (a ++ b) = remove_emojis a ++ remove_emojis b.
Proof.
  induction a as [|c a IH]; [done|]. simpl.
  destruct (in_emoji_class c); [done|]. simpl. by rewrite IH.
Qed.

(** Property X17.  The output of the emoji removal has no character of the
    class; the removal is idempotent, distributes over concatenation,
    never lengthens the text, and leaves a text unchanged exactly when
    the text has no character of the class. *)
Theorem remove_emojis_clean :
  (∀ text, Forall (λ c, in_emoji_class c = false) (remove_emojis text))
  ∧ (∀ text, remove_emojis (remove_emojis text) = remove_emojis text)
  ∧ (∀ a b, remove_emojis (a ++ b) = remove_emojis a ++ remove_emojis b)
  ∧ (∀ text, (length (remove_emojis text) ≤ length text)%nat)
  ∧ (∀ text, remove_emojis text = text ↔
             Forall (λ c, in_emoji_class c = false) text).
Proof.
  assert (Hclean : ∀ text,
            Forall (λ c, in_emoji_class c = false) (remove_emojis text)).
  { induction text as [|c text IH]; simpl; [constructor|].
    destruct (in_emoji_class c) eqn:E; [done|]. by constructor. }
  assert (Hid : ∀ text, Forall (λ c, in_emoji_class c = false) text →
                        remove_emojis text = text).
  { induction 1 as [|c text Hc _ IH]; simpl; [done|]. by rewrite Hc, IH. }
  split; [exact Hclean|]. split; [|split; [exact remove_emojis_app|split]].
  - intros text. apply Hid, Hclean.
  - induction text as [|c text IH]; simpl; [done|].
    destruct (in_emoji_class c); simpl; lia.
  - intros text. split; [|apply Hid]. intros <-. apply Hclean.
Qed.

(** ** Specifications of runs *)

Lemma spec_weaken {A} (run : M A) (Q Q' : result A → list effect → Prop) :
  spec run Q → (∀ r new, Q r new → Q' r new) → spec run Q'.
Proof. intros H HQ tr. destruct (H tr) as (new & ? & ?). eauto. Qed.

Lemma spec_ret {A} (a : A) : spec (mret a) (λ r new, r = Ok a ∧ new = []).
Proof. intros tr. by exists []. Qed.

Lemma spec_lift {A} (r : result A) : spec (lift r) (λ r' new, r' = r ∧ new = []).
Proof. intros tr. by exists []. Qed.

Lemma spec_emit e : spec (emit e) (λ r new, r = Ok () ∧ new = [e]).
Proof. intros tr. by exists [e]. Qed.

Lemma spec_bind {A B} (run : M A) (f : A → M B) Q1 Q2
    (Q : result B → list effect → Prop) :
  spec run Q1 →
  (∀ a, spec (f a) (Q2 a)) →
  (∀ e new, Q1 (Raise e) new → Q (Raise e) new) →
  (∀ a new1 r new2, Q1 (Ok a) new1 → Q2 a r new2 → Q r (new2 ++ new1)) →
  spec (run ≫= f) Q.
Proof.
  intros Hrun Hf Hraise Hok tr. rewrite bind_run.
  destruct (Hrun tr) as (new1 & Htr1 & HQ1).
  destruct (run tr) as [[a|e] tr1]; simpl in *; subst tr1.
  - destruct (Hf a (new1 ++ tr)) as (new2 & Htr2 & HQ2).
    exists (new2 ++ new1). rewrite Htr2, <- app_assoc. eauto.
  - exists new1. eauto.
Qed.

Lemma spec_attempt {A} (run : M A) Q :
  spec run Q → spec (attempt run) (λ r new, ∃ r0, r = Ok r0 ∧ Q r0 new).
Proof.
  intros H tr. destruct (H tr) as (new & Htr & HQ). unfold attempt.
  destruct (run tr) as [r tr1]. exists new. eauto.
Qed.

Lemma spec_try_except {A} (run : M A) (handler : exn → M A) Q1 Q2
    (Q : result A → list effect → Prop) :
  spec run Q1 →
  (∀ e, spec (handler e) (Q2 e)) →
  (∀ a new, Q1 (Ok a) new → Q (Ok a) new) →
  (∀ e new1 r new2, Q1 (Raise e) new1 → Q2 e r new2 → Q r (new2 ++ new1)) →
  spec (try_except run handler) Q.
Proof.
  intros Hrun Hh Hok Hraise tr. unfold try_except.
  destruct (Hrun tr) as (new1 & Htr1 & HQ1).
  destruct (run tr) as [[a|e] tr1]; simpl in *; subst tr1.
  - exists new1. eauto.
  - destruct (Hh e (new1 ++ tr)) as (new2 & Htr2 & HQ2).
    exists (new2 ++ new1). rewrite Htr2, <- app_assoc. eauto.
Qed.

Lemma spec_send_error w text :
  spec (send_error_to_slack w text) (λ r new, new = [AlertPosted text]).
Proof. intros tr. by exists [AlertPosted text]. Qed.

Lemma emits_lift {A} (P : effect → Prop) (r : result A) : spec (lift r) (emits P).
Proof. eapply spec_weaken; [apply spec_lift|]. intros ? ? [_ ->]. constructor. Qed.

Lemma emits_ret {A} (P : effect → Prop) (a : A) : spec (mret a) (emits P).
Proof. eapply spec_weaken; [apply spec_ret|]. intros ? ? [_ ->]. constructor. Qed.

Lemma emits_emit (P : effect → Prop) e : P e → spec (emit e) (emits P).
Proof.
  intros He. eapply spec_weaken; [apply spec_emit|].
  intros ? ? [_ ->]. by repeat constructor.
Qed.

Lemma emits_bind {A B} (P : effect → Prop) (run : M A) (f : A → M B) :
  spec run (emits P) → (∀ a, spec (f a) (emits P)) → spec (run ≫= f) (emits P).
Proof.
  intros Hrun Hf. eapply spec_bind; [exact Hrun|exact Hf|done|].
  intros a new1 r new2 H1 H2. by apply Forall_app.
Qed.

Lemma emits_try_except {A} (P : effect → Prop) (run : M A) handler :
  spec run (emits P) → (∀ e, spec (handler e) (emits P)) →
  spec (try_except run handler) (emits P).
Proof.
  intros Hrun Hh. eapply spec_try_except; [exact Hrun|exact Hh|done|].
  intros e new1 r new2 H1 H2. by apply Forall_app.
Qed.

Lemma emits_attempt {A} (P : effect → Prop) (run : M A) :
  spec run (emits P) → spec (attempt run) (emits P).
Proof.
  intros H. eapply spec_weaken; [by apply spec_attempt|].
  by intros r new (r0 & _ & ?).
Qed.

Lemma emits_send_error (P : effect → Prop) w text :
  P (AlertPosted text) → spec (send_error_to_slack w text) (emits P).
Proof.
  intros HP. eapply spec_weaken; [apply spec_send_error|].
  intros ? ? ->. by repeat constructor.
Qed.

(** *** Logs and alerts only *)

Lemma log_and_alert_logs w message error :
  spec (log_and_alert w message error) (emits log_or_alert).
Proof.
  unfold log_and_alert. apply emits_bind; [by apply emits_emit|].
  intros _. by apply emits_send_error.
Qed.

Lemma get_parameter_logs w name :
  spec (get_parameter w name) (emits log_or_alert).
Proof.
  unfold get_parameter. apply emits_try_except; [apply emits_lift|].
  intros e. apply emits_bind; [by apply emits_send_error|].
  intros _. apply emits_lift.
Qed.

Lemma verify_signature_logs w signature payload :
  spec (verify_signature w signature payload) (emits log_or_alert).
Proof.
  unfold verify_signature. apply emits_try_except.
  - apply emits_bind; [apply get_parameter_logs|]. intros secret.
    apply emits_bind; [apply emits_lift|]. intros encoded. apply emits_ret.
  - intros e. apply emits_bind; [by apply emits_emit|]. intros _.
    apply emits_ret.
Qed.

Lemma get_question_id_to_title_logs w data :
  spec (get_question_id_to_title w data) (emits log_or_alert).
Proof.
  unfold get_question_id_to_title. apply emits_try_except; [apply emits_lift|].
  intros e. apply emits_bind; [by apply emits_send_error|].
  intros _. apply emits_lift.
Qed.

Lemma map_question_id_to_answer_logs w data :
  spec (map_question_id_to_answer w data) (emits log_or_alert).
Proof.
  unfold map_question_id_to_answer. apply emits_try_except; [apply emits_lift|].
  intros e. apply emits_bind; [apply log_and_alert_logs|].
  intros _. apply emits_lift.
Qed.

Lemma calculate_age_logs w birthdate_str :
  spec (calculate_age w birthdate_str) (emits log_or_alert).
Proof.
  unfold calculate_age. apply emits_try_except.
  - apply emits_bind; [apply emits_lift|]. intros b. apply emits_ret.
  - intros e. apply emits_bind; [by apply emits_send_error|].
    intros _. apply emits_lift.
Qed.

Lemma build_prompt_logs w form_response first_name last_name :
  spec (build_prompt w form_response first_name last_name) (emits log_or_alert).
Proof.
  unfold build_prompt.
  apply emits_bind; [apply emits_lift|]. intros form_definition.
  apply emits_bind; [apply emits_lift|]. intros form_answers.
  apply emits_bind; [apply get_question_id_to_title_logs|]. intros titles.
  apply emits_bind; [apply map_question_id_to_answer_logs|]. intros answers.
  cbv zeta.
  apply emits_bind; [apply calculate_age_logs|]. intros age.
  apply emits_bind; [apply emits_lift|]. intros prompt. apply emits_ret.
Qed.

(** *** What a response tells about the run *)

Lemma spec_bind_after {A B} (P : effect → Prop) (run : M A) (f : A → M B)
    (Q' Q : B → list effect → Prop) :
  spec run (emits P) →
  (∀ a, spec (f a) (on_response Q')) →
  (∀ b new1 new2, Forall P new1 → Q' b new2 → Q b (new2 ++ new1)) →
  spec (run ≫= f) (on_response Q).
Proof.
  intros Hrun Hf Hmono.
  eapply spec_bind; [exact Hrun|exact Hf|by intros e new _ b|].
  intros a new1 r new2 H1 H2 b ->. eauto.
Qed.

Lemma spec_raise_on {A} (e : exn) (Q : A → list effect → Prop) :
  spec (lift (Raise e)) (on_response Q).
Proof. intros tr. by exists []. Qed.

(** After values that have no effect. *)
Lemma spec_bind_lift {A B} (r : result A) (f : A → M B)
    (Q : B → list effect → Prop) :
  (∀ a, r = Ok a → spec (f a) (on_response Q)) →
  spec (lift r ≫= f) (on_response Q).
Proof.
  intros Hf tr. destruct r as [a|e].
  - exact (Hf a eq_refl tr).
  - by exists [].
Qed.

Lemma alerted_cons e new : alerted new → alerted (e :: new).
Proof. intros [text ?]. exists text. by apply elem_of_cons; right. Qed.

Lemma idle_Forall new : idle new ↔ Forall log_or_alert new.
Proof. unfold idle. by rewrite Forall_forall. Qed.

Lemma alert_then_respond w message error (r : response) :
  spec (log_and_alert w message error;; mret r)
    (on_response (λ resp new, resp = r ∧ idle new ∧ alerted new)).
Proof.
  intros tr. rewrite bind_run. unfold log_and_alert. rewrite bind_run.
  unfold emit, send_error_to_slack.
  match goal with |- context [AlertPosted ?t] => set (text := t) end.
  exists [AlertPosted text; Logged ERROR message].
  destruct (post_alert _ _ _); simpl; (split; [done|]); intros resp Hr;
    [|discriminate Hr].
  split; [by apply Ok_inj|]. split.
  - apply idle_Forall. by repeat constructor.
  - exists text. by left.
Qed.

Lemma delivered_app resp new1 new2 :
  delivered resp new2 → delivered resp (new2 ++ new1).
Proof.
  intros (Hcode & Halert & Hposted). split; [done|]. split.
  - intros H. by apply alerted_app, Halert.
  - intros H. destruct (Hposted H) as [text ?]. exists text.
    apply elem_of_app. by left.
Qed.

Lemma logs_anything {A} (run : M A) :
  spec run (emits log_or_alert) → spec run (emits anything).
Proof.
  intros H. eapply spec_weaken; [exact H|]. intros r new _.
  by apply Forall_forall.
Qed.

(** A computation followed by [raise] does not return. *)
Lemma spec_then_raise {A B} (P : effect → Prop) (run : M A) (e : exn) :
  spec run (emits P) →
  spec (run;; raise (A:=B) e) (λ r new, (∀ b, r ≠ Ok b) ∧ Forall P new).
Proof.
  intros Hrun.
  eapply (spec_bind _ _ _ (λ _ r new, r = Raise e ∧ new = []));
    [exact Hrun|intros a; apply spec_lift|..].
  - by intros e' new H.
  - intros a new1 r new2 H1 [-> ->]. by split.
Qed.

Lemma send_to_slack_posts w prompt :
  spec (send_to_slack w prompt)
    (λ r new, r = Ok () → ∃ text, PromptPosted text ∈ new).
Proof.
  unfold send_to_slack.
  eapply (spec_try_except _ _
            (λ r new, r = Ok () → ∃ text, PromptPosted text ∈ new)
            (λ _ r new, (∀ b, r ≠ Ok b) ∧ Forall anything new)).
  - eapply (spec_bind _ _ _
              (λ _ r new, r = Ok () → ∃ text, PromptPosted text ∈ new));
      [apply get_parameter_logs| |by intros e new _|].
    + intros url. cbv zeta.
      eapply (spec_bind _ _ _ (λ _ r new, ∃ text, new = [PromptPosted text]));
        [apply spec_lift| |by intros e new _|].
      * intros a. eapply spec_weaken; [apply spec_emit|].
        intros r new [_ ->]. eauto.
      * intros a new1 r new2 _ [text ->] _. exists text. apply elem_of_app.
        left. by left.
    + intros url new1 r new2 _ H Hr. destruct (H Hr) as [text ?].
      exists text. apply elem_of_app. by left.
  - intros e. apply spec_then_raise. by apply emits_send_error.
  - intros [] new H _. by apply H.
  - intros e new1 r new2 _ [Hr _] Hok. by destruct (Hr ()).
Qed.

Lemma spec_then_ret {A B} (P : effect → Prop) (run : M A) (b : B) :
  spec run (emits P) →
  spec (run;; mret b) (on_response (λ b' new, b' = b)).
Proof.
  intros Hrun.
  eapply (spec_bind _ _ _ (λ _ r new, r = Ok b ∧ new = []));
    [exact Hrun|intros a; apply spec_ret|by intros e new _ b'|].
  intros a new1 r new2 _ [-> _] b'. by intros ?%Ok_inj.
Qed.

Lemma save_to_db_extends g w user_id prompt :
  spec (save_to_db g w user_id prompt) (emits anything).
Proof.
  unfold save_to_db. apply emits_bind; [apply emits_lift|]. intros existing.
  destruct (negb _); [by apply emits_emit|].
  apply emits_bind; [apply emits_lift|]. intros _. by apply emits_emit.
Qed.

Lemma soft_app resp new1 new2 : soft resp new2 → soft resp (new2 ++ new1).
Proof. intros [? H]. split; [done|]. intros ?. by apply alerted_app, H. Qed.

Lemma alert_then_soft w message error detail :
  spec (log_and_alert w message error;; mret (respond 200 detail))
    (on_response soft).
Proof.
  eapply spec_weaken; [apply alert_then_respond|].
  intros r new H resp Hr. destruct (H resp Hr) as (-> & _ & Halert).
  by split.
Qed.

Lemma persist_and_signal_soft g w user_id prompt :
  spec (saved ← attempt (save_to_db g w user_id prompt);
        match saved with
        | Raise e =>
            log_and_alert w (lit "Unable to save user story to db") (Some e);;
            mret (respond 200 "Unable to save user story to db.")
        | Ok _ =>
            sent ← attempt (lift (sqs_send_message w (QUEUE_URL g) user_id);;
                            emit (SignalSent user_id));
            match sent with
            | Raise e =>
                log_and_alert w
                  (lit "Unable to send initiate generate workout flow for user "
                   ++ py_str w user_id) (Some e)
            | Ok _ => mret ()
            end;;
            mret {| statusCode := 200; body := None |}
        end)
    (on_response soft).
Proof.
  eapply (spec_bind_after anything);
    [apply emits_attempt, save_to_db_extends| |by intros; apply soft_app].
  intros [[]|e]; [|apply alert_then_soft].
  eapply (spec_bind_after anything); [| |by intros; apply soft_app].
  - apply emits_attempt, emits_bind; [apply emits_lift|].
    intros _. by apply emits_emit.
  - intros sent. eapply spec_weaken.
    + apply (spec_then_ret anything).
      destruct sent as [[]|e]; [apply emits_ret|].
      apply logs_anything, log_and_alert_logs.
    + intros r new H resp Hr. rewrite (H resp Hr). by split.
Qed.

Lemma deliver_delivered g w user_id prompt :
  spec (deliver g w user_id prompt) (on_response delivered).
Proof.
  unfold deliver.
  eapply (spec_bind _ _
            (λ r new, r = Ok () → ∃ text, PromptPosted text ∈ new)
            (λ _, on_response soft));
    [apply send_to_slack_posts|intros _; apply persist_and_signal_soft
    |by intros e new _ resp|].
  intros [] new1 r new2 Hposted Hsoft resp Hr.
  destruct (soft_app resp new1 new2 (Hsoft resp Hr)) as [Hcode Halert].
  split; [done|]. split; [done|]. intros _.
  destruct (Hposted eq_refl) as [text ?]. exists text.
  apply elem_of_app. by right.
Qed.

Lemma process_submission_delivered g w form_response user_id first_name
    last_name :
  spec (process_submission g w form_response user_id first_name last_name)
    (on_response delivered).
Proof.
  unfold process_submission.
  eapply (spec_bind_after log_or_alert);
    [apply build_prompt_logs|intros prompt; apply deliver_delivered|].
  intros resp new1 new2 _. apply delivered_app.
Qed.

Lemma processed_app resp new1 new2 :
  processed resp new2 → processed resp (new2 ++ new1).
Proof.
  intros (Hcode & Halert & Hdone). split; [done|]. split.
  - intros H. by apply alerted_app, Halert.
  - intros H. destruct (Hdone H) as [(u & f & t & ?) [text ?]]. split.
    + exists u, f, t. apply elem_of_app. by left.
    + exists text. apply elem_of_app. by left.
Qed.

Lemma soft_processed w message error detail :
  spec (log_and_alert w message error;; mret (respond 200 detail))
    (on_response processed).
Proof.
  eapply spec_weaken; [apply alert_then_respond|].
  intros r new H resp Hr. destruct (H resp Hr) as (-> & _ & Halert).
  by repeat split.
Qed.

Lemma update_user_records g w id form_id token :
  spec (update_user g w id form_id token)
    (λ r new, r = Ok () → new = [UserUpdated id form_id token]).
Proof.
  unfold update_user.
  eapply (spec_bind _ _ _ (λ _ r new, new = [UserUpdated id form_id token]));
    [apply spec_lift| |by intros e new _|].
  - intros a. eapply spec_weaken; [apply spec_emit|]. by intros r new [_ ->].
  - intros a new1 r new2 [_ ->] -> _. done.
Qed.

Lemma identify_user_processed g w raw_body :
  spec (identify_user g w raw_body) (on_response processed).
Proof.
  unfold identify_user.
  apply spec_bind_lift; intros body _.
  apply spec_bind_lift; intros form_response _.
  apply spec_bind_lift; intros form_id _.
  apply spec_bind_lift; intros token _.
  apply spec_bind_lift; intros hidden _.
  apply spec_bind_lift; intros user_id _.
  eapply (spec_bind_after anything);
    [by apply emits_emit| |by intros; apply processed_app].
  intros _.
  eapply (spec_bind_after anything);
    [apply emits_attempt, emits_lift| |by intros; apply processed_app].
  intros [cognito_user|e]; [|destruct e; apply soft_processed].
  apply spec_bind_lift; intros attributes _.
  apply spec_bind_lift; intros first_name _.
  apply spec_bind_lift; intros last_name _.
  eapply (spec_bind_after anything);
    [by apply emits_emit| |by intros; apply processed_app].
  intros _.
  eapply (spec_bind _ _
            (λ r new, ∃ r0, r = Ok r0
               ∧ (r0 = Ok () → new = [UserUpdated user_id form_id token]))
            (λ updated, on_response
               (match updated with
                | Ok _ => delivered
                | Raise _ => processed
                end))).
  - apply spec_attempt, update_user_records.
  - intros [[]|e]; [apply process_submission_delivered|apply soft_processed].
  - by intros e new _ resp.
  - intros updated new1 r new2 (r0 & Hr0%Ok_inj & Hnew) H resp Hr. subst r0.
    destruct updated as [[]|e].
    + destruct (H resp Hr) as (Hcode & Halert & Hposted).
      rewrite (Hnew eq_refl). split; [done|]. split.
      * intros Hb. by apply alerted_app, Halert.
      * intros Hb. destruct (Hposted Hb) as [text ?]. split.
        -- exists user_id, form_id, token. apply elem_of_app. right. by left.
        -- exists text. apply elem_of_app. by left.
    + by apply processed_app, H.
Qed.

(** Property X1.  What every answer of the handler tells: the status is
    403 or 200; a 403 carries a detail and was preceded by an alert and
    by nothing that processes the submission; a 200 with a detail was
    preceded by an alert; a 200 without one was preceded by the identity
    update and the post of the prompt. *)
Theorem handler_answers_disciplined g w event tr resp tr' :
  lambda_handler g w event tr = (Ok resp, tr') →
  ∃ new, tr' = new ++ tr ∧ discipline resp new.
Proof.
  assert (Hspec : spec (lambda_handler g w event) (on_response discipline)).
  { assert (Hmono : ∀ resp new1 new2, Forall log_or_alert new1 →
                      discipline resp new2 → discipline resp (new2 ++ new1)).
    { intros r new1 new2 H1 [(? & ? & Hidle & ?)|(? & Halert & Hdone)].
      - left. repeat split; try done.
        + apply idle_Forall, Forall_app. by split; [apply idle_Forall|].
        + by apply alerted_app.
      - right. by apply (processed_app r new1 new2). }
    assert (Hreject : ∀ message detail,
              spec (log_and_alert w message None;; mret (respond 403 detail))
                (on_response discipline)).
    { intros message detail. eapply spec_weaken; [apply alert_then_respond|].
      intros r new H r' Hr. destruct (H r' Hr) as (-> & ? & ?).
      left. by repeat split. }
    unfold lambda_handler.
    apply spec_bind_lift; intros raw_body _.
    apply spec_bind_lift; intros headers _.
    apply spec_bind_lift; intros received_signature _.
    destruct (negb (py_truthy received_signature)); [apply Hreject|].
    apply spec_bind_lift; intros [sha_name signature] _.
    destruct (negb (bool_decide _)); [apply Hreject|].
    eapply (spec_bind_after log_or_alert);
      [apply verify_signature_logs| |exact Hmono].
    intros is_valid. destruct (negb is_valid); [apply Hreject|].
    eapply spec_weaken; [apply identify_user_processed|].
    intros r new H r' Hr. right. by apply H. }
  intros Hrun. destruct (Hspec tr) as (new & Htr & HQ). rewrite Hrun in *.
  exists new. split; [exact Htr|]. by apply HQ.
Qed.

(** *** Nothing is processed for a request that does not verify *)

Lemma split_once_inv sep s a b :
  split_once sep s = Some (a, b) → s = a ++ sep :: b ∧ sep ∉ a.
Proof.
  revert a. induction s as [|c s IH]; intros a; [done|]. cbn [split_once].
  destruct (Z.eqb_spec c sep) as [->|Hne].
  - intros [= <- <-]. split; [done|]. apply not_elem_of_nil.
  - destruct (split_once sep s) as [[a' b']|]; [|done].
    cbn [mbind option_bind]. intros [= <- <-].
    destruct (IH a' eq_refl) as [-> Hnot]. split; [done|].
    apply not_elem_of_cons. by split; [congruence|].
Qed.

Lemma split_signature_inv header sha_name signature :
  split_signature header = Ok (sha_name, signature) →
  header = JStr (sha_name ++ 61 :: signature) ∧ 61 ∉ sha_name.
Proof.
  unfold split_signature. destruct header as [| | |s| |]; try done.
  destruct (split_once 61 s) as [[a b]|] eqn:Hsplit; [|done].
  intros [= <- <-]%Ok_inj. destruct (split_once_inv _ _ _ _ Hsplit) as [-> ?].
  done.
Qed.

Lemma verify_signature_sound w signature payload :
  spec (verify_signature w signature payload)
    (λ r new, Forall log_or_alert new
              ∧ (r = Ok true → signature_verifies w signature payload)).
Proof.
  intros tr. destruct (verify_signature_logs w signature payload tr)
    as (new & Htr & Hnew).
  exists new. split; [exact Htr|]. split; [exact Hnew|]. clear Htr Hnew.
  unfold verify_signature, try_except. rewrite bind_run.
  unfold get_parameter, try_except, lift.
  destruct (ssm_get_parameter _ _) as [secret|e] eqn:Hsecret.
  - rewrite bind_run. destruct payload as [| | |p| |]; try done.
    destruct (hmac_sha256_base64 w secret p) as [encoded|e] eqn:Hmac;
      [|done].
    unfold mret, M_ret. cbn [fst]. intros [= Hd%bool_decide_eq_true_1].
    subst encoded. by exists secret, p.
  - rewrite bind_run. unfold send_error_to_slack.
    by destruct (post_alert _ _ _).
Qed.

Lemma send_to_slack_extends w prompt :
  spec (send_to_slack w prompt) (emits anything).
Proof.
  unfold send_to_slack. apply emits_try_except.
  - apply emits_bind; [apply logs_anything, get_parameter_logs|].
    intros url. cbv zeta. apply emits_bind; [apply emits_lift|].
    intros _. by apply emits_emit.
  - intros e. apply emits_bind; [by apply emits_send_error|].
    intros _. apply emits_lift.
Qed.

Lemma deliver_extends g w user_id prompt :
  spec (deliver g w user_id prompt) (emits anything).
Proof.
  unfold deliver. apply emits_bind; [apply send_to_slack_extends|]. intros _.
  apply emits_bind; [apply emits_attempt, save_to_db_extends|].
  intros [[]|e].
  - apply emits_bind.
    + apply emits_attempt, emits_bind; [apply emits_lift|].
      intros _. by apply emits_emit.
    + intros sent. apply emits_bind; [|intros _; apply emits_ret].
      destruct sent as [[]|e]; [apply emits_ret|].
      apply logs_anything, log_and_alert_logs.
  - apply emits_bind; [apply logs_anything, log_and_alert_logs|].
    intros _. apply emits_ret.
Qed.

Lemma identify_user_extends g w raw_body :
  spec (identify_user g w raw_body) (emits anything).
Proof.
  unfold identify_user.
  do 6 (apply emits_bind; [apply emits_lift|]; intros ?).
  apply emits_bind; [by apply emits_emit|]. intros _.
  apply emits_bind; [apply emits_attempt, emits_lift|].
  intros [cognito_user|e].
  - do 3 (apply emits_bind; [apply emits_lift|]; intros ?).
    apply emits_bind; [by apply emits_emit|]. intros _.
    apply emits_bind.
    + apply emits_attempt. unfold update_user.
      apply emits_bind; [apply emits_lift|]. intros _. by apply emits_emit.
    + intros [[]|e].
      * unfold process_submission.
        apply emits_bind; [apply logs_anything, build_prompt_logs|].
        intros prompt. apply deliver_extends.
      * apply emits_bind; [apply logs_anything, log_and_alert_logs|].
        intros _. apply emits_ret.
  - destruct e;
      (apply emits_bind; [apply logs_anything, log_and_alert_logs|]);
      intros _; apply emits_ret.
Qed.

(** Property X2.  Whatever the outcome, response or error, the handler
    updates the user, posts the prompt, saves the story or signals the
    queue only for a request whose signature verifies: every other run
    adds log entries and alerts only. *)
Theorem unverified_request_not_processed g w event tr r tr' :
  lambda_handler g w event tr = (r, tr') →
  ∃ new, tr' = new ++ tr
         ∧ (idle new ∨ ∃ raw_body, verified w event raw_body).
Proof.
  set (Q := λ (_ : result response) new,
              idle new ∨ ∃ raw_body, verified w event raw_body).
  assert (Hspec : spec (lambda_handler g w event) Q).
  { assert (Hidle : ∀ (run : M response),
              spec run (emits log_or_alert) → spec run Q).
    { intros run H. eapply spec_weaken; [exact H|].
      intros ? new ?. left. by apply idle_Forall. }
    assert (Hreject : ∀ message detail,
              spec (log_and_alert w message None;; mret (respond 403 detail)) Q).
    { intros message detail. apply Hidle.
      apply emits_bind; [apply log_and_alert_logs|]. intros _. apply emits_ret. }
    assert (Hlift : ∀ {A} (x : result A) (f : A → M response),
              (∀ a, x = Ok a → spec (f a) Q) → spec (lift x ≫= f) Q).
    { intros A x f Hf tr0. destruct x as [a|e]; [exact (Hf a eq_refl tr0)|].
      exists []. split; [done|]. left. by intros ? ?%elem_of_nil. }
    unfold lambda_handler.
    apply Hlift; intros raw_body Hbody.
    apply Hlift; intros headers Hheaders.
    apply Hlift; intros received_signature Hheader.
    destruct (negb (py_truthy received_signature)); [apply Hreject|].
    apply Hlift; intros [sha_name signature] Hsplit.
    destruct (bool_decide (sha_name = lit "sha256")) eqn:Hname;
      cbn [negb]; [|apply Hreject].
    apply bool_decide_eq_true_1 in Hname. subst sha_name.
    apply split_signature_inv in Hsplit as [-> _].
    eapply (spec_bind _ _ _
              (λ (is_valid : bool) (r : result response) new,
                 if is_valid then Forall anything new else Q r new));
      [apply verify_signature_sound| | |].
    - intros [|]; cbn [negb]; [apply identify_user_extends|apply Hreject].
    - intros e new [Hnew _]. left. by apply idle_Forall.
    - intros is_valid new1 r0 new2 [Hnew1 Hvalid] H2.
      destruct is_valid.
      + right. exists raw_body, signature. split; [|by apply Hvalid].
        split; [done|]. by exists headers.
      + destruct H2 as [Hidle2|Hver]; [|by right]. left.
        apply idle_Forall, Forall_app.
        by split; [apply idle_Forall|]. }
  intros Hrun. destruct (Hspec tr) as (new & Htr & HQ). rewrite Hrun in *.
  exists new. by split.
Qed.

(** *** Signature verification *)

(** Property X6.  The signature check never raises: it returns a boolean,
    adds nothing but log entries and alerts, returns true exactly when
    the secret is read, the payload is a string and its digest under the
    secret equals the received signature, and then adds nothing. *)
Theorem verify_signature_decides w signature payload tr :
  ∃ b new,
    verify_signature w signature payload tr = (Ok b, new ++ tr)
    ∧ idle new
    ∧ (b = true ↔ signature_verifies w signature payload)
    ∧ (b = true → new = []).
Proof.
  destruct (verify_signature_sound w signature payload tr)
    as (new & Htr & Hnew & Hsound).
  destruct (verify_signature_total w signature payload tr) as (b & tr' & Hrun).
  rewrite Hrun in *. cbn [fst snd] in *. subst tr'.
  exists b, new. split; [done|]. split; [by apply idle_Forall|].
  assert (signature_verifies w signature payload → b = true ∧ new = [])
    as Hcomplete.
  { intros Hver. rewrite (verify_signature_accepts w _ _ tr Hver) in Hrun.
    injection Hrun as <- Heq. split; [done|].
    apply (f_equal length) in Heq. rewrite length_app in Heq.
    destruct new; [done|]. simpl in Heq. lia. }
  split; [split|].
  - intros ->. by apply Hsound.
  - by intros [? _]%Hcomplete.
  - intros ->. by apply Hcomplete, Hsound.
Qed.

(** *** Cognito attributes *)

(** Property X7.  The attribute lookup returns the value of the first
    attribute with the name asked for, and None when every attribute
    has another name; an attribute without a name that comes before any
    match makes it raise. *)
Theorem get_cognito_user_attribute_first attribute_name :
  (∀ before attr after value,
     Forall (λ a, ∃ n, py_getitem a (lit "Name") = Ok n
                       ∧ py_eq_str n attribute_name = false) before →
     py_getitem attr (lit "Name") = Ok (JStr attribute_name) →
     py_getitem attr (lit "Value") = Ok value →
     get_cognito_user_attribute (JArr (before ++ attr :: after)) attribute_name
     = Ok value)
  ∧ (∀ attrs,
     Forall (λ a, ∃ n, py_getitem a (lit "Name") = Ok n
                       ∧ py_eq_str n attribute_name = false) attrs →
     get_cognito_user_attribute (JArr attrs) attribute_name = Ok JNull)
  ∧ (∀ before attr after,
     Forall (λ a, ∃ n, py_getitem a (lit "Name") = Ok n
                       ∧ py_eq_str n attribute_name = false) before →
     py_has attr (lit "Name") = false →
     ∃ e, get_cognito_user_attribute (JArr (before ++ attr :: after))
            attribute_name = Raise e).
Proof.
  unfold get_cognito_user_attribute. cbn [py_iter mbind result_bind].
  split; [|split].
  - intros before attr after value Hbefore Hname Hvalue.
    induction Hbefore as [|a before (n & Hn & Hne) _ IH]; cbn [app find_attribute].
    + rewrite Hname. cbn [mbind result_bind py_eq_str].
      by rewrite bool_decide_eq_true_2.
    + rewrite Hn. cbn [mbind result_bind]. by rewrite Hne.
  - intros attrs Hattrs.
    induction Hattrs as [|a attrs (n & Hn & Hne) _ IH]; cbn [find_attribute];
      [done|].
    rewrite Hn. cbn [mbind result_bind]. by rewrite Hne.
  - intros before attr after Hbefore Hmissing.
    induction Hbefore as [|a before (n & Hn & Hne) _ IH]; cbn [app find_attribute].
    + destruct (py_getitem attr (lit "Name")) as [n|e] eqn:Hn; [|eauto].
      apply py_getitem_has in Hn. congruence.
    + rewrite Hn. cbn [mbind result_bind]. by rewrite Hne.
Qed.

(** *** Persistence *)

(** Property X8.  The persistence write by cases: when the query finds no
    story and the write succeeds, exactly the story is stored; when the
    query finds a story, nothing is stored and only a log entry is
    added; when the query raises, or finds none and the write raises,
    that error is raised again and nothing is added. *)
Theorem save_to_db_first_record_wins g w user_id prompt tr :
  (dynamodb_query w (STORY_TABLE g) user_id = Ok 0%nat →
   dynamodb_put_item w (STORY_TABLE g) user_id prompt = Ok () →
   save_to_db g w user_id prompt tr = (Ok (), StorySaved user_id prompt :: tr))
  ∧ (∀ n, dynamodb_query w (STORY_TABLE g) user_id = Ok (S n) →
       save_to_db g w user_id prompt tr
       = (Ok (),
          Logged INFO (lit "User " ++ py_str w user_id
                       ++ lit " already has a story") :: tr))
  ∧ (∀ e, dynamodb_query w (STORY_TABLE g) user_id = Raise e →
       save_to_db g w user_id prompt tr = (Raise e, tr))
  ∧ (∀ e, dynamodb_query w (STORY_TABLE g) user_id = Ok 0%nat →
       dynamodb_put_item w (STORY_TABLE g) user_id prompt = Raise e →
       save_to_db g w user_id prompt tr = (Raise e, tr)).
Proof.
  unfold save_to_db. repeat apply conj.
  - intros Hq Hput. rewrite (bind_lift_ok _ _ _ _ Hq). cbn [Nat.eqb negb].
    rewrite bind_run. unfold lift. by rewrite Hput.
  - intros n Hq. by rewrite (bind_lift_ok _ _ _ _ Hq).
  - intros e Hq. by rewrite (bind_lift_raise _ _ _ _ Hq).
  - intros e Hq Hput. rewrite (bind_lift_ok _ _ _ _ Hq). cbn [Nat.eqb negb].
    by rewrite (bind_lift_raise _ _ _ _ Hput).
Qed.

(** *** Notification *)

Lemma send_error_then_raise_run {A} w text e tr :
  (send_error_to_slack w text;; raise (A:=A) e) tr
  = (Raise (match post_alert w (length (filter is_alert tr)) text with
            | Ok _ => e
            | Raise e' => e'
            end),
     AlertPosted text :: tr).
Proof.
  rewrite bind_run. unfold send_error_to_slack.
  by destruct (post_alert _ _ _) as [[]|e'].
Qed.

(** Property X9.  The failures of the notification, by cases on the posts
    to the alert webhook.  When the webhook address cannot be read, two
    alerts are posted, the one of the parameter read and then the
    notification's own, and nothing else is added; the error raised is
    that of the read, unless an alert post raises: the error of the
    latest alert post that raised takes its place.  When the post of the
    prompt raises, one alert is posted, and the error raised is that of
    the post of the prompt, or that of the alert post when it raises. *)
Theorem send_to_slack_alerts w prompt tr :
  let n := length (filter is_alert tr) in
  (∀ e, ssm_get_parameter w (lit "slackWebhookUrl") = Raise e →
     let read_alert :=
       lit "Failed to get parameter " ++ lit "slackWebhookUrl" ++ lit ": "
       ++ str_exn w e in
     let e1 := match post_alert w n read_alert with
               | Ok _ => e
               | Raise e' => e'
               end in
     let own_alert := lit "Failed to send message to Slack: " ++ str_exn w e1 in
     send_to_slack w prompt tr
     = (Raise (match post_alert w (S n) own_alert with
               | Ok _ => e1
               | Raise e' => e'
               end),
        [AlertPosted own_alert; AlertPosted read_alert] ++ tr))
  ∧ (∀ url e,
       ssm_get_parameter w (lit "slackWebhookUrl") = Ok url →
       post_prompt w url (lit "*Prompt*:" ++ [10] ++ lit "> " ++ prompt)
       = Raise e →
       let own_alert := lit "Failed to send message to Slack: " ++ str_exn w e in
       send_to_slack w prompt tr
       = (Raise (match post_alert w n own_alert with
                 | Ok _ => e
                 | Raise e' => e'
                 end),
          [AlertPosted own_alert] ++ tr)).
Proof.
  intros n. split.
  - intros e He read_alert e1 own_alert. unfold send_to_slack, try_except.
    assert (get_parameter w (lit "slackWebhookUrl") tr
            = (Raise e1, AlertPosted read_alert :: tr)) as Hget.
    { unfold get_parameter, try_except, lift. rewrite He.
      apply send_error_then_raise_run. }
    rewrite (bind_raise _ _ _ _ _ Hget).
    rewrite send_error_then_raise_run.
    replace (length (filter is_alert (AlertPosted read_alert :: tr)))
      with (S n); [done|].
    by rewrite filter_cons_True by (exact I).
  - intros url e Hurl Hpost own_alert. unfold send_to_slack, try_except.
    rewrite (bind_ok _ _ _ _ _ (get_parameter_ok w _ _ tr Hurl)).
    cbv zeta. rewrite (bind_lift_raise _ _ e) by done.
    apply send_error_then_raise_run.
Qed.

(** *** A signature header that cannot be split *)

(** Property X4.  A signature header that is a non-empty string without
    an equals sign makes the handler raise ValueError, and a truthy
    header that is not a string makes it raise AttributeError; in both
    cases nothing is logged, alerted or answered. *)
Theorem malformed_signature_header_raises g w event raw_body tr :
  (∀ s, event_of event raw_body (JStr s) →
        s ≠ [] → 61 ∉ s →
        lambda_handler g w event tr = (Raise ValueError, tr))
  ∧ (∀ header, event_of event raw_body header →
        py_truthy header = true →
        (∀ s, header ≠ JStr s) →
        lambda_handler g w event tr = (Raise AttributeError, tr)).
Proof.
  split.
  - intros s Hev Hne Hnot. rewrite (handler_enters g w _ _ _ tr Hev).
    replace (py_truthy (JStr s)) with true by (by destruct s).
    cbn [negb]. unfold split_signature. by rewrite (split_once_none _ _ Hnot).
  - intros header Hev Htruthy Hnostr.
    rewrite (handler_enters g w _ _ _ tr Hev), Htruthy. cbn [negb].
    destruct header as [| | |s| |]; try done. by destruct (Hnostr s).
Qed.

(** *** The order of processing *)

(** Property X3.  When every step succeeds the handler answers 200
    without a body and without any alert, and it has processed the
    submission in this order (the trace lists the latest effect first):
    the identity update, the post of the prompt, the write of the story
    if and only if the user had none, the signal to the queue. *)
Theorem handler_success_order g w event form_response user_id first_name
    last_name prompt existing tr :
  accepted g w event form_response user_id first_name last_name →
  returns (build_prompt w form_response first_name last_name) prompt →
  notified w prompt →
  dynamodb_query w (STORY_TABLE g) user_id = Ok existing →
  (existing = 0%nat →
   dynamodb_put_item w (STORY_TABLE g) user_id prompt = Ok ()) →
  sqs_send_message w (QUEUE_URL g) user_id = Ok () →
  ∃ new form_id token,
    answers (lambda_handler g w event) tr
      {| statusCode := 200; body := None |} new
    ∧ List.filter is_processing new
      = SignalSent user_id
        :: (if Nat.eqb existing 0 then [StorySaved user_id prompt] else [])
        ++ [ PromptPosted (lit "*Prompt*:" ++ [10] ++ lit "> " ++ prompt);
             UserUpdated user_id form_id token ]
    ∧ ¬ alerted new.
Proof.
  intros (raw_body & form_id & token & Hver & Hsub & Hid & Hupdate)
    Hprompt Hnote Hquery Hput Hsqs.
  unfold answers. rewrite (handler_verified g w _ _ tr Hver).
  rewrite (identify_user_update g w _ _ _ _ _ _ _ tr Hsub Hid).
  rewrite bind_run. unfold attempt at 1, update_user. rewrite bind_run.
  unfold lift at 1. rewrite Hupdate. unfold emit at 1. cbv beta iota.
  rewrite (process_submission_delivers g w _ _ _ _ prompt) by done.
  unfold deliver.
  rewrite (bind_ok _ _ _ _ _ (send_to_slack_ok w prompt _ Hnote)).
  rewrite bind_run. unfold attempt at 1, save_to_db.
  rewrite (bind_lift_ok _ _ existing) by done.
  destruct existing as [|n]; cbn [Nat.eqb negb].
  - rewrite bind_run. unfold lift at 1. rewrite (Hput eq_refl).
    unfold emit at 1. cbv beta iota.
    rewrite bind_run. unfold attempt. rewrite bind_run. unfold lift.
    rewrite Hsqs. unfold emit. cbv beta iota.
    eexists [_; _; _; _; _; _], form_id, token.
    split; [reflexivity|]. split; [reflexivity|].
    intros [text Hin].
    repeat (apply elem_of_cons in Hin as [Hin|Hin]; [discriminate Hin|]).
    by apply elem_of_nil in Hin.
  - unfold emit at 1. cbv beta iota.
    rewrite bind_run. unfold attempt. rewrite bind_run. unfold lift.
    rewrite Hsqs. unfold emit. cbv beta iota.
    eexists [_; _; _; _; _; _], form_id, token.
    split; [reflexivity|]. split; [reflexivity|].
    intros [text Hin].
    repeat (apply elem_of_cons in Hin as [Hin|Hin]; [discriminate Hin|]).
    by apply elem_of_nil in Hin.
Qed.

(** *** Composition failures *)

Lemma all_strings_pair a b :
  (is_str a && is_str b = true →
   ∃ s t, a = JStr s ∧ b = JStr t ∧ all_strings [a; b] = Ok [s; t])
  ∧ (is_str a && is_str b = false → all_strings [a; b] = Raise TypeError).
Proof.
  destruct a, b; cbn; split; intros H; try discriminate H; try done; eauto.
Qed.

Lemma environment_join_failure w first_name workout_location gym_name
    available_equipment other_equipment :
  let joins := negb (py_eq_str workout_location (lit "Gym"))
               && py_truthy other_equipment in
  (joins && negb (is_str available_equipment && is_str other_equipment) = true →
   format_environment_detail w first_name workout_location gym_name
     available_equipment other_equipment = Raise TypeError)
  ∧ (joins && negb (is_str available_equipment && is_str other_equipment)
     = false →
     ∃ sentence,
       format_environment_detail w first_name workout_location gym_name
         available_equipment other_equipment = Ok sentence).
Proof.
  intros joins. subst joins. unfold format_environment_detail.
  destruct (py_eq_str workout_location (lit "Gym")); cbn [negb andb].
  { split; [discriminate|eauto]. }
  destruct (py_truthy other_equipment); cbn [negb andb].
  2:{ split; [discriminate|]. cbn [mbind result_bind]. eauto. }
  destruct (all_strings_pair available_equipment other_equipment)
    as [Hok Hbad].
  destruct (is_str available_equipment && is_str other_equipment);
    cbn [negb]; split; try discriminate.
  - intros _. destruct (Hok eq_refl) as (s & t & _ & _ & ->).
    cbn [mbind result_bind]. eauto.
  - intros _. by rewrite (Hbad eq_refl).
Qed.

(** Property X13.  The composition of the prompt fails in exactly one
    case: the workout location is not the gym, the other equipment is
    truthy, and the available or the other equipment is not a string. *)
Theorem generate_prompt_fails_only_on_join w a :
  (∃ e, generate_prompt w a = Raise e) ↔
  negb (py_eq_str (workout_location a) (lit "Gym"))
  && py_truthy (other_equipment a)
  && negb (is_str (available_equipment a) && is_str (other_equipment a))
  = true.
Proof.
  destruct (environment_join_failure w (first_name a) (workout_location a)
              (gym_name a) (available_equipment a) (other_equipment a))
    as [Hbad Hok].
  cbv zeta in Hbad, Hok. unfold generate_prompt.
  destruct (_ && _ && negb _).
  - rewrite (Hbad eq_refl). cbn [mbind result_bind]. split; eauto.
  - destruct (Hok eq_refl) as [sentence ->]. cbn [mbind result_bind].
    split; [intros [e He]; discriminate He|discriminate].
Qed.

(** *** Answers the prompt does not read *)

(** Property X14.  For a member who trains at the gym, already does cardio,
    reports no injury and has not chosen a sets-and-reps style of their
    own, the prompt is composed and does not depend on the answers for
    the planned cardio, the available and other equipment, the custom
    sets and reps and the injury details. *)
Theorem prompt_ignores_unused_answers w a a' :
  first_name a = first_name a' → last_name a = last_name a' →
  age a = age a' → gender a = gender a' →
  fitness_level a = fitness_level a' → height a = height a' →
  weight a = weight a' → fitness_goals a = fitness_goals a' →
  exercise_frequency a = exercise_frequency a' →
  workout_duration a = workout_duration a' →
  weightlifting_duration a = weightlifting_duration a' →
  number_of_exercises a = number_of_exercises a' →
  cardio_frequency a = cardio_frequency a' →
  cardio_length a = cardio_length a' →
  preferred_cardio_types a = preferred_cardio_types a' →
  gym_name a = gym_name a' →
  sets_reps a = sets_reps a' →
  py_eq_str (sets_reps a) (lit "I have a different style") = false →
  py_eq_str (current_cardio a) (lit "Yes") = true →
  py_eq_str (current_cardio a') (lit "Yes") = true →
  py_eq_str (workout_location a) (lit "Gym") = true →
  py_eq_str (workout_location a') (lit "Gym") = true →
  py_eq_str (physical_injuries a) (lit "Yes") = false →
  py_eq_str (physical_injuries a') (lit "Yes") = false →
  generate_prompt w a = generate_prompt w a'
  ∧ ∃ prompt, generate_prompt w a = Ok prompt.
Proof.
  intros Hfn Hln Hage Hg Hfl Hh Hwt Hfg Hef Hwd Hwld Hne Hcf Hcl Hpc Hgym
    Hsr Hsent Hcc Hcc' Hloc Hloc' Hinj Hinj'.
  assert (Hview : ∀ b,
    py_eq_str (sets_reps b) (lit "I have a different style") = false →
    py_eq_str (current_cardio b) (lit "Yes") = true →
    py_eq_str (workout_location b) (lit "Gym") = true →
    py_eq_str (physical_injuries b) (lit "Yes") = false →
    generate_prompt w b =
    Ok ((lit "Create a workout for " ++ py_str w (first_name b) ++ lit " "
         ++ py_str w (last_name b) ++ lit ", " ++ py_int_str (age b)
         ++ lit " years old, " ++ py_str w (gender b)
         ++ lit ", fitness level: " ++ py_str w (fitness_level b)
         ++ lit ", height: " ++ py_str w (height b)
         ++ lit ", weight: " ++ py_str w (weight b) ++ lit " lbs. ")
        ++ (lit "Fitness goals: " ++ py_str w (fitness_goals b) ++ lit ". ")
        ++ (lit "Training frequency: " ++ py_str w (exercise_frequency b)
            ++ lit " sessions/week, duration: "
            ++ py_str w (workout_duration b) ++ lit " per session. ")
        ++ weightlifting_sentence w (weightlifting_duration b)
             (number_of_exercises b) (sets_reps b)
        ++ (lit "3. Cardio: " ++ py_str w (first_name b)
            ++ lit " includes cardio in the workouts, doing "
            ++ py_str w (cardio_frequency b) ++ lit " sessions of "
            ++ py_str w (preferred_cardio_types b) ++ lit " for "
            ++ py_str w (cardio_length b) ++ lit ". ")
        ++ (lit "4. Environment: " ++ py_str w (first_name b)
            ++ lit " trains at " ++ py_str w (gym_name b) ++ lit ". ")
        ++ []
        ++ (lit "Based on " ++ py_str w (first_name b)
            ++ lit "'s preferences, create a workout with a warm-up, main exercises, cardio (if included), and a cool-down."))).
  { intros b H1 H2 H3 H4.
    unfold generate_prompt, format_cardio_detail, format_environment_detail,
      format_injury_detail, format_sets_reps.
    by rewrite H1, H2, H3, H4. }
  assert (py_eq_str (sets_reps a') (lit "I have a different style") = false)
    as Hsent' by (by rewrite <- Hsr).
  rewrite (Hview a Hsent Hcc Hloc Hinj), (Hview a' Hsent' Hcc' Hloc' Hinj').
  split; [|eauto].
  by rewrite Hfn, Hln, Hage, Hg, Hfl, Hh, Hwt, Hfg, Hef, Hwd, Hwld, Hne, Hcf,
    Hcl, Hpc, Hgym, Hsr.
Qed.

(** *** The extracted maps *)

Lemma record_answer_inv w d answer d' :
  record_answer w d answer = Ok d' →
  ∃ key value, answer_key answer = Some key
               ∧ answer_value_of w answer = Ok value
               ∧ d' = <[key := value]> d.
Proof.
  unfold record_answer, answer_key, dict_set.
  destruct (py_getitem answer (lit "field")) as [field|]; [|done].
  cbn [mbind result_bind].
  destruct (py_getitem field (lit "id")) as [id|]; [|done].
  cbn [mbind result_bind].
  destruct (answer_value_of w answer) as [value|]; [|done].
  cbn [mbind result_bind].
  destruct (to_key id) as [key|]; [|done]. intros <-%Ok_inj. eauto.
Qed.

Lemma fold_record_answer_lookup w answers d d' key :
  fold_result (record_answer w) d answers = Ok d' →
  d' !! key =
  match last (List.filter (λ a, bool_decide (answer_key a = Some key)) answers)
  with
  | Some answer =>
      match answer_value_of w answer with
      | Ok value => Some value
      | Raise _ => None
      end
  | None => d !! key
  end.
Proof.
  revert d. induction answers as [|a answers IH]; intros d; cbn [fold_result].
  - by intros <-%Ok_inj.
  - destruct (record_answer w d a) as [d1|] eqn:Hstep; [|done].
    cbn [mbind result_bind]. intros Hrest. rewrite (IH _ Hrest).
    destruct (record_answer_inv _ _ _ _ Hstep) as (k & v & Hk & Hv & ->).
    cbn [List.filter]. rewrite Hk.
    destruct (decide (k = key)) as [->|Hne].
    + rewrite bool_decide_eq_true_2 by done.
      destruct (List.filter _ answers) as [|b rest] eqn:Hf.
      * cbn [last]. by rewrite Hv, lookup_insert_eq.
      * rewrite last_cons_cons.
        destruct (last (b :: rest)) eqn:Hl; [done|].
        by apply last_None in Hl.
    + rewrite bool_decide_eq_false_2 by congruence.
      destruct (last _); [done|]. by rewrite lookup_insert_ne.
Qed.

(** Property X11.  In the map of a successful extraction the entry of an
    id is the value of the last answer with that id, an id that no
    answer has is absent, and every answer of the submission has an id
    and a value and is represented in the map. *)
Theorem extracted_answer_is_the_last w answers d :
  question_id_to_answer_of w (JArr answers) = Ok d →
  (∀ key,
     d !! key =
     answer ← last (List.filter
                      (λ a, bool_decide (answer_key a = Some key)) answers);
     match answer_value_of w answer with
     | Ok value => Some value
     | Raise _ => None
     end)
  ∧ (∀ answer, answer ∈ answers →
       ∃ key value, answer_key answer = Some key
                    ∧ answer_value_of w answer = Ok value
                    ∧ is_Some (d !! key)).
Proof.
  unfold question_id_to_answer_of. cbn [py_iter mbind result_bind].
  intros Hfold. split.
  - intros key. rewrite (fold_record_answer_lookup w _ _ _ key Hfold).
    rewrite lookup_empty. by destruct (last _).
  - assert (Hkeep : ∀ l d0 d1 k,
              fold_result (record_answer w) d0 l = Ok d1 →
              is_Some (d0 !! k) → is_Some (d1 !! k)).
    { induction l as [|a l IH]; intros d0 d1 k; cbn [fold_result].
      - by intros <-%Ok_inj.
      - destruct (record_answer w d0 a) as [d2|] eqn:Hstep; [|done].
        cbn [mbind result_bind]. intros Hrest Hk.
        eapply IH; [exact Hrest|].
        destruct (record_answer_inv _ _ _ _ Hstep) as (k' & v & _ & _ & ->).
        destruct (decide (k' = k)) as [->|?].
        + rewrite lookup_insert_eq. eauto.
        + by rewrite lookup_insert_ne. }
    revert Hfold. generalize (∅ : gmap pykey json) as d0.
    induction answers as [|a answers IH]; intros d0 Hfold answer Hin.
    + by apply elem_of_nil in Hin.
    + cbn [fold_result] in Hfold.
      destruct (record_answer w d0 a) as [d1|] eqn:Hstep; [|done].
      cbn [mbind result_bind] in Hfold.
      apply elem_of_cons in Hin as [->|Hin]; [|by eapply IH].
      destruct (record_answer_inv _ _ _ _ Hstep) as (k & v & Hk & Hv & ->).
      exists k, v. split; [done|]. split; [done|].
      eapply Hkeep; [exact Hfold|]. rewrite lookup_insert_eq. eauto.
Qed.

(** Property X12.  The pairs built by the handler have exactly the ids of
    the form definition: each pair holds the title of the definition
    and the extracted answer, or the empty string without one; an answer
    whose id is not defined is dropped, and an id that is not defined
    resolves to "Not provided". *)
Theorem merge_follows_definition (titles answers : gmap pykey json) :
  dom (question_answer_pairs_of titles answers) = dom titles
  ∧ (∀ key pair,
       question_answer_pairs_of titles answers !! key = Some pair →
       pair !! KStr (lit "title") = titles !! key
       ∧ pair !! KStr (lit "answer")
         = Some (default (JStr (lit "")) (answers !! key)))
  ∧ (∀ id, titles !! KStr id = None →
       safe_get_answer (question_answer_pairs_of titles answers) id
       = JStr (lit "Not provided")).
Proof.
  split; [|split].
  - apply set_eq. intros key. rewrite !elem_of_dom.
    rewrite lookup_question_answer_pairs. by rewrite fmap_is_Some.
  - intros key pair. rewrite lookup_question_answer_pairs.
    destruct (titles !! key) as [title|]; [|done].
    cbn [fmap option_fmap option_map]. intros [= <-]. split.
    + rewrite lookup_insert_ne; [|by vm_compute]. by rewrite lookup_singleton_eq.
    + by rewrite lookup_insert_eq.
  - intros id Hnone. unfold safe_get_answer.
    by rewrite lookup_question_answer_pairs, Hnone.
Qed.

(** *** The birthdate *)

Lemma safe_get_answer_merged (titles answers : gmap pykey json) id :
  safe_get_answer (question_answer_pairs_of titles answers) id =
  match titles !! KStr id with
  | Some _ => default (JStr (lit "")) (answers !! KStr id)
  | None => JStr (lit "Not provided")
  end.
Proof.
  unfold safe_get_answer. rewrite lookup_question_answer_pairs.
  destruct (titles !! KStr id) as [title|]; simpl; [|done].
  by rewrite pair_answer.
Qed.

(** Property X5.  The birthdate is required: when an accepted submission
    extracts well but the birthdate field is not defined or not
    answered, the handler ends in an unhandled error. *)
Theorem missing_birthdate_is_fatal g w event form_response user_id first_name
    last_name form_definition form_answers titles answers :
  accepted g w event form_response user_id first_name last_name →
  py_getitem form_response (lit "definition") = Ok form_definition →
  py_getitem form_response (lit "answers") = Ok form_answers →
  question_id_to_title_of form_definition = Ok titles →
  question_id_to_answer_of w form_answers = Ok answers →
  titles !! KStr (lit "VYsICm8rAEYx") = None
  ∨ answers !! KStr (lit "VYsICm8rAEYx") = None →
  raises (lambda_handler g w event).
Proof.
  intros Hacc Hdef Hans Htitles Hanswers Hmissing.
  eapply handler_propagates_composition; [exact Hacc|].
  eapply build_prompt_birthdate_fails; [done..|].
  intros s. rewrite safe_get_answer_merged.
  destruct (titles !! KStr (lit "VYsICm8rAEYx")) as [title|] eqn:Htitle.
  - destruct Hmissing as [?|Hnone]; [done|]. rewrite Hnone.
    cbn [default]. intros [= <-]. by exists ValueError.
  - intros [= <-]. by exists ValueError.
Qed.

(** Property X15.  For a birthdate that parses the age is computed without
    any effect, lies between the difference of the years minus one and
    that difference, is not negative when the birthdate is not after
    today and is negative when it is: a birthdate in the future is
    accepted. *)
Theorem age_sign_follows_order w s birthdate tr :
  strptime_ymd w s = Ok birthdate →
  ∃ n, calculate_age w (JStr s) tr = (Ok n, tr)
       ∧ year (datetime_now w) - year birthdate - 1 ≤ n
       ∧ n ≤ year (datetime_now w) - year birthdate
       ∧ (date_le birthdate (datetime_now w) → 0 ≤ n)
       ∧ (¬ date_le birthdate (datetime_now w) → n < 0).
Proof.
  intros Hparse. rewrite (calculate_age_parsed w s birthdate tr Hparse).
  eexists. split; [reflexivity|]. unfold age_on, date_le.
  pose proof (tuple_lt_spec (month (datetime_now w)) (day (datetime_now w))
                (month birthdate) (day birthdate)) as Hlt.
  destruct (tuple_lt _ _).
  - assert (month (datetime_now w) < month birthdate
            ∨ month (datetime_now w) = month birthdate
              ∧ day (datetime_now w) < day birthdate) by (by apply Hlt).
    lia.
  - assert (¬ (month (datetime_now w) < month birthdate
               ∨ month (datetime_now w) = month birthdate
                 ∧ day (datetime_now w) < day birthdate))
      by (intros ?%Hlt; discriminate).
    lia.
Qed.

(** *** An alert that fails hides the error it reports *)

(** Property X10.  When the extraction of the answers fails, the error is
    logged and an alert is posted; the error that leaves the function is
    the error of the extraction if the alert is delivered, and the error
    of the alert post if it is not. *)
Theorem alert_failure_masks_extraction_error w data e tr :
  question_id_to_answer_of w data = Raise e →
  let message := lit "Failed to map question id to answer: " ++ str_exn w e in
  let text := message ++ lit ". Error: " ++ lit "None" in
  map_question_id_to_answer w data tr
  = (match post_alert w (length (filter is_alert tr)) text with
     | Ok _ => Raise e
     | Raise e' => Raise e'
     end,
     AlertPosted text :: Logged ERROR message :: tr).
Proof.
  intros Hfail message text.
  unfold map_question_id_to_answer, try_except, lift. rewrite Hfail.
  rewrite bind_run. unfold log_and_alert. rewrite bind_run.
  unfold emit, send_error_to_slack. cbn [from_option].
  fold message. fold text.
  replace (filter is_alert (Logged ERROR message :: tr))
    with (filter is_alert tr)
    by (by rewrite filter_cons_False by (exact id)).
  by destruct (post_alert _ _ _) as [[]|e'].
Qed.

(** ** Instances of the further properties *)

Lemma emoji_class_extent_witness : in_emoji_class 0x4E2D = true.
Proof.
  apply (proj2 (emoji_class_extent 0x4E2D)).
  right. right. right. right. split; discriminate.
Defined.

Lemma remove_emojis_clean_witness : remove_emojis (lit "Ana") = lit "Ana".
Proof.
  apply (proj2 (proj2 (proj2 (proj2 (proj2 remove_emojis_clean))) (lit "Ana"))).
  repeat constructor.
Defined.

Lemma handler_answers_disciplined_witness :
  ∃ new,
    snd (lambda_handler Sample.deployed (Sample.served [])
           Sample.unsigned_event []) = new ++ []
    ∧ discipline (respond 403 "Permission denied.") new.
Proof.
  exact (handler_answers_disciplined Sample.deployed (Sample.served [])
           Sample.unsigned_event [] (respond 403 "Permission denied.") _
           eq_refl).
Defined.

Lemma unverified_request_not_processed_witness :
  ∃ new,
    snd (lambda_handler Sample.deployed (Sample.served [])
           Scenario.unsplit_event []) = new ++ []
    ∧ (idle new
       ∨ ∃ raw_body,
           verified (Sample.served []) Scenario.unsplit_event raw_body).
Proof.
  exact (unverified_request_not_processed Sample.deployed (Sample.served [])
           Scenario.unsplit_event [] (Raise ValueError) _ eq_refl).
Defined.

Lemma verify_signature_decides_witness :
  ∃ b new,
    verify_signature (Sample.served []) (lit "secretpayload")
      (JStr (lit "payload")) [] = (Ok b, new ++ [])
    ∧ idle new
    ∧ (b = true ↔
       signature_verifies (Sample.served []) (lit "secretpayload")
         (JStr (lit "payload")))
    ∧ (b = true → new = []).
Proof.
  exact (verify_signature_decides (Sample.served []) (lit "secretpayload")
           (JStr (lit "payload")) []).
Defined.

Lemma get_cognito_user_attribute_first_witness :
  get_cognito_user_attribute
    (JArr ([JObj [(lit "Name", JStr (lit "given_name"));
                  (lit "Value", JStr (lit "Ana"))]]
           ++ JObj [(lit "Name", JStr (lit "family_name"));
                    (lit "Value", JStr (lit "Silva"))] :: []))
    (lit "family_name")
  = Ok (JStr (lit "Silva")).
Proof.
  apply (proj1 (get_cognito_user_attribute_first (lit "family_name"))).
  - constructor; [|constructor]. eexists. split; reflexivity.
  - reflexivity.
  - reflexivity.
Defined.

Lemma save_to_db_first_record_wins_witness :
  save_to_db Sample.deployed (Sample.served []) (JStr (lit "user-1"))
    (lit "prompt") []
  = (Ok (), [StorySaved (JStr (lit "user-1")) (lit "prompt")]).
Proof.
  exact (proj1 (save_to_db_first_record_wins Sample.deployed (Sample.served [])
                  (JStr (lit "user-1")) (lit "prompt") []) eq_refl eq_refl).
Defined.

Lemma send_to_slack_alerts_witness :
  send_to_slack
    (Scenario.secrets_down (Sample.alerts_down (Sample.served [])))
    (lit "prompt") []
  = (Raise (ExternalError 0),
     [ AlertPosted (lit "Failed to send message to Slack: " ++ lit "error");
       AlertPosted (lit "Failed to get parameter " ++ lit "slackWebhookUrl"
                    ++ lit ": " ++ lit "error") ] ++ []).
Proof.
  exact (proj1 (send_to_slack_alerts
                  (Scenario.secrets_down (Sample.alerts_down (Sample.served [])))
                  (lit "prompt") []) (ExternalError 2) eq_refl).
Defined.

Lemma malformed_signature_header_raises_witness :
  lambda_handler Sample.deployed (Sample.served []) Scenario.unsplit_event []
  = (Raise ValueError, []).
Proof.
  apply (proj1 (malformed_signature_header_raises Sample.deployed
                  (Sample.served []) Scenario.unsplit_event
                  (JStr (lit "payload")) []) (lit "sha256")).
  - split; [reflexivity|]. eexists. split; reflexivity.
  - discriminate.
  - apply (bool_decide_unpack _). by vm_compute.
Defined.

Lemma handler_success_order_witness :
  ∃ prompt new form_id token,
    answers (lambda_handler Sample.deployed
               (Sample.served [Sample.birthdate_answer; Sample.multi_choice_AB])
               Sample.signed_event) []
      {| statusCode := 200; body := None |} new
    ∧ List.filter is_processing new
      = SignalSent (JStr (lit "user-1"))
        :: [StorySaved (JStr (lit "user-1")) prompt]
        ++ [ PromptPosted (lit "*Prompt*:" ++ [10] ++ lit "> " ++ prompt);
             UserUpdated (JStr (lit "user-1")) form_id token ]
    ∧ ¬ alerted new.
Proof.
  eexists.
  refine (handler_success_order Sample.deployed
            (Sample.served [Sample.birthdate_answer; Sample.multi_choice_AB])
            Sample.signed_event
            (Sample.form_response
               [Sample.birthdate_answer; Sample.multi_choice_AB])
            (JStr (lit "user-1")) (JStr (lit "Ana")) (JStr (lit "Silva"))
            _ 0%nat [] _ _ _ eq_refl (λ _, eq_refl) eq_refl).
  - by apply sample_accepted.
  - intros tr. vm_compute. reflexivity.
  - eexists. split; reflexivity.
Defined.

Lemma generate_prompt_fails_only_on_join_witness :
  ∃ e, generate_prompt Sample.quiet Scenario.home_args = Raise e.
Proof.
  apply (proj2 (generate_prompt_fails_only_on_join Sample.quiet
                  Scenario.home_args)).
  reflexivity.
Defined.

Lemma prompt_ignores_unused_answers_witness :
  generate_prompt Sample.quiet Scenario.gym_args
  = generate_prompt Sample.quiet Scenario.gym_args_varied
  ∧ ∃ prompt, generate_prompt Sample.quiet Scenario.gym_args = Ok prompt.
Proof.
  apply (prompt_ignores_unused_answers Sample.quiet Scenario.gym_args
           Scenario.gym_args_varied); reflexivity.
Defined.

Lemma extracted_answer_is_the_last_witness :
  ∃ key value,
    answer_key Sample.text_answer = Some key
    ∧ answer_value_of Sample.quiet Sample.text_answer = Ok value
    ∧ is_Some
        ((<[KStr (lit "Ie0vINxRmbiE") := JStr (lit "180 cm")]> ∅
          : gmap pykey json) !! key).
Proof.
  apply (proj2 (extracted_answer_is_the_last Sample.quiet
                  [Sample.text_answer]
                  (<[KStr (lit "Ie0vINxRmbiE") := JStr (lit "180 cm")]> ∅)
                  eq_refl) Sample.text_answer).
  apply list_elem_of_here.
Defined.

Lemma merge_follows_definition_witness :
  safe_get_answer
    (question_answer_pairs_of
       (<[KStr (lit "Ie0vINxRmbiE") := JStr (lit "Height")]> ∅) ∅)
    (lit "VYsICm8rAEYx")
  = JStr (lit "Not provided").
Proof.
  apply (proj2 (proj2 (merge_follows_definition
                         (<[KStr (lit "Ie0vINxRmbiE") := JStr (lit "Height")]> ∅)
                         ∅))).
  by vm_compute.
Defined.

Lemma age_sign_follows_order_witness :
  ∃ n, calculate_age Sample.quiet (JStr (lit "1990-06-15")) [] = (Ok n, [])
       ∧ 2024 - 1990 - 1 ≤ n
       ∧ n ≤ 2024 - 1990
       ∧ (date_le {| year := 1990; month := 6; day := 15 |}
            (datetime_now Sample.quiet) → 0 ≤ n)
       ∧ (¬ date_le {| year := 1990; month := 6; day := 15 |}
            (datetime_now Sample.quiet) → n < 0).
Proof.
  exact (age_sign_follows_order Sample.quiet (lit "1990-06-15")
           {| year := 1990; month := 6; day := 15 |} [] eq_refl).
Defined.

Lemma alert_failure_masks_extraction_error_witness :
  map_question_id_to_answer (Sample.alerts_down Sample.quiet)
    (JArr [Sample.multi_choice_without_other]) []
  = (Raise (ExternalError 0),
     [ AlertPosted ((lit "Failed to map question id to answer: "
                     ++ lit "error") ++ lit ". Error: " ++ lit "None");
       Logged ERROR (lit "Failed to map question id to answer: "
                     ++ lit "error") ]).
Proof.
  exact (alert_failure_masks_extraction_error (Sample.alerts_down Sample.quiet)
           (JArr [Sample.multi_choice_without_other]) (KeyError (lit "other"))
           [] eq_refl).
Defined.

Lemma missing_birthdate_is_fatal_witness :
  raises (lambda_handler Sample.deployed
            (Sample.served [Sample.multi_choice_AB]) Sample.signed_event).
Proof.
  refine (missing_birthdate_is_fatal Sample.deployed
            (Sample.served [Sample.multi_choice_AB]) Sample.signed_event
            (Sample.form_response [Sample.multi_choice_AB])
            (JStr (lit "user-1")) (JStr (lit "Ana")) (JStr (lit "Silva"))
            Sample.form_definition (JArr [Sample.multi_choice_AB])
            _ (<[KStr (lit "9CnfCXmUgSXo") := JStr (lit "A, B")]> ∅)
            _ eq_refl eq_refl eq_refl eq_refl _).
  - by apply sample_accepted.
  - right. by vm_compute.
Defined.
